(** * Task Service (GraphQL): a shallow embedding of [services/graphql-api/server.js]

    (the second document of [src/frontend-app/src/app/page.tsx])

    The server keeps its whole state in module-level variables ([tasks],
    [taskActivities], [cachedAuthPublicKey]) and in the in-process [pubsub]
    bus.  Resolvers read and write that state and may [throw].  We model the
    module-level variables as one record, resolvers as functions in a small
    state-and-exception monad, and the outside world (the clock, [uuidv4], the
    HTTP client and the token library's cryptography) as explicit inputs. *)

From Stdlib Require Import ZArith Ascii String.
From stdpp Require Import base option list strings gmap.

Local Open Scope string_scope.
Local Open Scope Z_scope.

(** ** JavaScript values used by the server *)

Module JS.

(** Truthiness of a string: every string but [''] is truthy. *)
Definition truthy (s : string) : bool := negb (String.eqb s "").

(** [a || b] on strings. *)
Definition or (a b : string) : string := if truthy a then a else b.

(** [v || b] where [v] may be [undefined] (or [null]). *)
Definition or_undef (v : option string) (b : string) : string :=
  match v with
  | Some a => or a b
  | None => b
  end.

(** [a === b] on strings. *)
Definition seq (a b : string) : bool := String.eqb a b.

(** [s.split(sep)] for a one-character separator. *)
Fixpoint split (sep : ascii) (s : string) : list string :=
  match s with
  | EmptyString => [EmptyString]
  | String c rest =>
      if Ascii.eqb c sep then EmptyString :: split sep rest
      else match split sep rest with
           | w :: ws => String c w :: ws
           | [] => [String c EmptyString]
           end
  end.

(** [s.startsWith(p)]. *)
Definition startsWith (s p : string) : bool := String.prefix p s.

(** [s.replace(/\/$/, '')]: drop one trailing slash. *)
Fixpoint replace_trailing_slash (s : string) : string :=
  match s with
  | EmptyString => EmptyString
  | String c EmptyString => if Ascii.eqb c "/" then EmptyString else s
  | String c rest => String c (replace_trailing_slash rest)
  end.

(** [l.findIndex(p)]: index of the first element satisfying [p], else [-1]. *)
Fixpoint findIndex {A} (p : A -> bool) (l : list A) : Z :=
  match l with
  | [] => -1
  | x :: l' =>
      if p x then 0
      else let r := findIndex p l' in
           if r =? -1 then -1 else r + 1
  end.

End JS.

(** ** Data model *)

(** [enum TaskStatus { TODO IN_PROGRESS DONE }] *)
Inductive TaskStatus := TODO | IN_PROGRESS | DONE.

Module Task.
Record t := mk {
  id : string;
  title : string;
  description : string;
  status : TaskStatus;
  assignee : string;
  createdAt : string;
  updatedAt : string
}.
End Task.

Module TaskActivity.
Record t := mk {
  id : string;
  taskId : string;
  message : string;
  author : string;
  createdAt : string
}.
End TaskActivity.

(** The object returned by the [context] function (without [req]). *)
Record Context := mkContext {
  userId : string;
  userName : string;
  userEmail : string;
  userTeams : list string;
  userRole : string
}.

(** An incoming request: only its headers matter. *)
Record Request := mkRequest { headers : gmap string string }.

(** What [pubsub.publish(topic, payload)] was called with. *)
Inductive Event :=
| TASK_CREATED (taskCreated : Task.t)
| TASK_UPDATED (taskUpdated : Task.t)
| TASK_DELETED (taskDeleted : string)
| TASK_ACTIVITY_ADDED (taskActivityAdded : TaskActivity.t).

(** The module-level state of the server.  [published] is the sequence of
    [pubsub.publish] calls so far and [console] the lines written by
    [console.log] and [console.warn]. *)
Record Server := mkServer {
  tasks : list Task.t;
  taskActivities : list TaskActivity.t;
  cachedAuthPublicKey : string;
  published : list Event;
  console : list string
}.

(** ** Computations that read and write the server state and may throw *)

Inductive completion (A : Type) :=
| Return (a : A)
| Throw (message : string).
Arguments Return {A} a.
Arguments Throw {A} message.

Definition M (A : Type) := Server -> completion A * Server.

Definition ret {A} (a : A) : M A := fun s => (Return a, s).

Definition throw {A} (message : string) : M A := fun s => (Throw message, s).

Definition bind {A B} (m : M A) (k : A -> M B) : M B :=
  fun s =>
    match m s with
    | (Return a, s') => k a s'
    | (Throw e, s') => (Throw e, s')
    end.

(** [try { m } catch (error) { h error }] *)
Definition try_catch {A} (m : M A) (h : string -> M A) : M A :=
  fun s =>
    match m s with
    | (Return a, s') => (Return a, s')
    | (Throw e, s') => h e s'
    end.

Definition get {A} (f : Server -> A) : M A := fun s => (Return (f s), s).

Definition modify (f : Server -> Server) : M unit := fun s => (Return tt, f s).

Declare Scope js_scope.
Delimit Scope js_scope with js.
Notation "x <~ m ;; k" := (bind m (fun x => k))
  (at level 100, m at next level, right associativity) : js_scope.
Notation "m ;;; k" := (bind m (fun _ => k))
  (at level 100, right associativity) : js_scope.
Local Open Scope js_scope.

Definition set_tasks (ts : list Task.t) : M unit :=
  modify (fun s => mkServer ts (taskActivities s) (cachedAuthPublicKey s)
                            (published s) (console s)).

Definition set_taskActivities (acts : list TaskActivity.t) : M unit :=
  modify (fun s => mkServer (tasks s) acts (cachedAuthPublicKey s)
                            (published s) (console s)).

Definition set_cachedAuthPublicKey (key : string) : M unit :=
  modify (fun s => mkServer (tasks s) (taskActivities s) key
                            (published s) (console s)).

(** [pubsub.publish(topic, payload)] *)
Definition publish (e : Event) : M unit :=
  modify (fun s => mkServer (tasks s) (taskActivities s) (cachedAuthPublicKey s)
                            (published s ++ [e]) (console s)).

(** [console.log(line)] and [console.warn(line)] *)
Definition console_write (line : string) : M unit :=
  modify (fun s => mkServer (tasks s) (taskActivities s) (cachedAuthPublicKey s)
                            (published s) (console s ++ [line])).

(** ** Resolvers *)

(** [...(v && { field: v })] spread over the previous value of a string
    field: an absent ([undefined], [null]) or empty [v] contributes nothing. *)
Definition spread_string (v : option string) (old : string) : string :=
  match v with
  | Some s => if JS.truthy s then s else old
  | None => old
  end.

(** The same for [status]; every enum value is a non-empty string. *)
Definition spread_status (v : option TaskStatus) (old : TaskStatus) : TaskStatus :=
  match v with
  | Some st => st
  | None => old
  end.

(** [context.userRole !== 'admin' && task.assignee !== context.userName] *)
Definition not_allowed (context : Context) (task : Task.t) : bool :=
  negb (JS.seq (userRole context) "admin")
  && negb (JS.seq (Task.assignee task) (userName context)).

Module Query.

(** [task: (_, { id }) => tasks.find((task) => task.id === id)] *)
Definition task (id : string) : M (option Task.t) :=
  ts <~ get tasks ;;
  ret (List.find (fun task => JS.seq (Task.id task) id) ts).

(** [Task.activities: (parent) => taskActivities.filter((a) => a.taskId === parent.id)] *)
Definition activities (parent : Task.t) : M (list TaskActivity.t) :=
  acts <~ get taskActivities ;;
  ret (List.filter (fun a => JS.seq (TaskActivity.taskId a) (Task.id parent)) acts).

(** [tasks: () => tasks] *)
Definition tasks : M (list Task.t) := get tasks.

End Query.

Module Mutation.

(** [uuidv4] is the value [uuidv4()] returns in this call and [now] the
    value of [new Date().toISOString()].  The schema declares [assignee]
    as [String!]; the resolver nevertheless guards against a falsy value,
    so the argument is modelled as possibly absent. *)
Definition createTask (uuidv4 now : string)
    (title description : string) (assignee : option string)
    (context : Context) : M Task.t :=
  if negb (JS.truthy (userId context)) then
    throw "Authentication required to create a task."
  else
    let task :=
      Task.mk uuidv4 title description TODO
              (JS.or_undef assignee (JS.or (userName context) "Unassigned"))
              now now in
    ts <~ get tasks ;;
    set_tasks (ts ++ [task]) ;;;
    publish (TASK_CREATED task) ;;;
    ret task.

Definition updateTask (now : string)
    (id : string) (title description : option string)
    (status : option TaskStatus) (assignee : option string)
    (context : Context) : M Task.t :=
  ts <~ get tasks ;;
  let idx := JS.findIndex (fun t => JS.seq (Task.id t) id) ts in
  if idx =? -1 then throw "Task not found"
  else
    match ts !! Z.to_nat idx with
    | None => throw "Cannot read properties of undefined (reading 'assignee')"
    | Some task =>
        if not_allowed context task then
          throw "You are not allowed to update this task."
        else
          let updated :=
            Task.mk (Task.id task)
                    (spread_string title (Task.title task))
                    (spread_string description (Task.description task))
                    (spread_status status (Task.status task))
                    (spread_string assignee (Task.assignee task))
                    (Task.createdAt task)
                    now in
          set_tasks (<[Z.to_nat idx := updated]> ts) ;;;
          publish (TASK_UPDATED updated) ;;;
          ret updated
    end.

Definition addTaskActivity (uuidv4 now : string)
    (taskId message : string) (context : Context) : M TaskActivity.t :=
  if negb (JS.truthy (userId context)) then
    throw "Authentication required to add activity."
  else
    ts <~ get tasks ;;
    match List.find (fun t => JS.seq (Task.id t) taskId) ts with
    | None => throw "Task not found"
    | Some _ =>
        let activity :=
          TaskActivity.mk uuidv4 taskId message
                          (JS.or (userName context) "Unknown") now in
        acts <~ get taskActivities ;;
        set_taskActivities (acts ++ [activity]) ;;;
        publish (TASK_ACTIVITY_ADDED activity) ;;;
        ret activity
    end.

Definition deleteTask (id : string) (context : Context) : M bool :=
  ts <~ get tasks ;;
  let idx := JS.findIndex (fun t => JS.seq (Task.id t) id) ts in
  if idx =? -1 then ret false
  else
    match ts !! Z.to_nat idx with
    | None => throw "Cannot read properties of undefined (reading 'assignee')"
    | Some task =>
        if not_allowed context task then
          throw "You are not allowed to delete this task."
        else
          set_tasks (delete (Z.to_nat idx) ts) ;;;
          acts <~ get taskActivities ;;
          set_taskActivities
            (List.filter (fun a => negb (JS.seq (TaskActivity.taskId a) id)) acts) ;;;
          publish (TASK_DELETED id) ;;;
          ret true
    end.

End Mutation.

(** ** Identity verification *)

(** The payload of a verified token, as far as [context] reads it.  A field
    is [None] when the payload lacks it; [teams] is [None] unless
    [Array.isArray(decoded.teams)].  A payload that is not an object has
    none of the fields; [context] treats it (and a falsy [decoded]) as it
    treats the payload with every field [None]: no variable is changed. *)
Module Payload.
Record t := mk {
  userId : option string;
  name : option string;
  email : option string;
  teams : option (list string);
  role : option string
}.
End Payload.

(** What the server takes from its environment: two environment variables,
    the HTTP client, and the primitives of the token library.
    - [axios_get endpoint] is [inl data] when [axios.get(endpoint)] resolves
      with [response.data = data] and [inr message] when it rejects;
    - [jws_decode token] parses a compact token: [inl (alg, payload)] gives
      the [alg] named in its header (the empty string for a header without
      one) and its payload, [inr message] the message of the error
      [jwt.verify] raises for a token it cannot take apart;
    - [jwt_precheck token key] is the message of the error, if any, that
      [jwt.verify] raises for a decoded token before it consults
      [options.algorithms]: a token without a signature ('jwt signature is
      required') and, in the versions that test it at that point, key
      material that cannot be used;
    - [jws_verify token alg key] is [None] when the signature of [token]
      verifies under [alg] and [key], and otherwise the message of the
      error [jwt.verify] raises after the algorithm test and before it
      looks at the payload ('invalid signature', or a complaint about the
      kind of key);
    - [claims_error token] is the message of the error, if any, raised by
      the library's checks of the registered claims of the token's payload
      (expiry and the like). *)
Record World := mkWorld {
  AUTH_PUBLIC_KEY_URL : option string;
  AUTH_SERVICE_URL : option string;
  axios_get : string -> string + string;
  jws_decode : string -> (string * Payload.t) + string;
  jwt_precheck : string -> string -> option string;
  jws_verify : string -> string -> string -> option string;
  claims_error : string -> option string
}.

Section IdentityVerifier.

Variable w : World.

(** [[a, b, c, d].filter(Boolean)] on possibly-null strings. *)
Definition filter_Boolean (l : list (option string)) : list string :=
  omap (fun v => match v with
                 | Some s => if JS.truthy s then Some s else None
                 | None => None
                 end) l.

Definition PUBLIC_KEY_ENDPOINTS : list string :=
  filter_Boolean
    [ AUTH_PUBLIC_KEY_URL w;
      match AUTH_SERVICE_URL w with
      | Some url =>
          if JS.truthy url
          then Some (JS.replace_trailing_slash url ++ "/api/auth/public-key")
          else None
      | None => None
      end;
      Some "http://rest-api:3001/api/auth/public-key";
      Some "http://localhost:3001/api/auth/public-key" ].

(** The [for (const endpoint of PUBLIC_KEY_ENDPOINTS)] loop of
    [getAuthPublicKey], with its final [return '']. *)
Fixpoint fetch_public_key (endpoints : list string) : M string :=
  match endpoints with
  | [] => ret ""
  | endpoint :: rest =>
      match axios_get w endpoint with
      | inl data =>
          if JS.truthy data then
            set_cachedAuthPublicKey data ;;;
            console_write ("Task GraphQL API cached auth public key from " ++ endpoint) ;;;
            get cachedAuthPublicKey
          else fetch_public_key rest
      | inr message =>
          console_write ("Task GraphQL API failed to fetch public key from "
                         ++ endpoint ++ ": " ++ message) ;;;
          fetch_public_key rest
      end
  end.

(** One turn of that loop, from the moment the request to [endpoint] has
    settled up to the next [await]: [Some key] when [getAuthPublicKey]
    returns [key] there, [None] when the loop goes on to the next endpoint.
    While the request is pending other code may run. *)
Definition settle_public_key (endpoint : string) : M (option string) :=
  match axios_get w endpoint with
  | inl data =>
      if JS.truthy data then
        set_cachedAuthPublicKey data ;;;
        console_write ("Task GraphQL API cached auth public key from " ++ endpoint) ;;;
        key <~ get cachedAuthPublicKey ;;
        ret (Some key)
      else ret None
  | inr message =>
      console_write ("Task GraphQL API failed to fetch public key from "
                     ++ endpoint ++ ": " ++ message) ;;;
      ret None
  end.

Definition getAuthPublicKey : M string :=
  cached <~ get cachedAuthPublicKey ;;
  if JS.truthy cached then ret cached
  else fetch_public_key PUBLIC_KEY_ENDPOINTS.

(** [jwt.verify(token, key, { algorithms })] of the [jsonwebtoken]
    library, for a non-empty [key] and a given list [algorithms], in the
    order of its checks: the token must be present; it must come apart into
    header, payload and signature; the signature must be there and the key
    usable; the [alg] of the header must be among [algorithms]; the
    signature must verify under that [alg] and the key; the registered
    claims must pass.  Only the first test and the algorithm test are
    written out; the others, and their messages, are the library's and come
    from the world. *)
Definition jwt_verify (token key : string) (algorithms : list string)
    : M Payload.t :=
  if negb (JS.truthy token) then throw "jwt must be provided"
  else
    match jws_decode w token with
    | inr message => throw message
    | inl (alg, payload) =>
        match jwt_precheck w token key with
        | Some message => throw message
        | None =>
            if negb (existsb (JS.seq alg) algorithms) then throw "invalid algorithm"
            else match jws_verify w token alg key with
                 | Some message => throw message
                 | None =>
                     match claims_error w token with
                     | Some message => throw message
                     | None => ret payload
                     end
                 end
        end
    end.

Definition decodeToken (token : string) : M Payload.t :=
  publicKey <~ getAuthPublicKey ;;
  if negb (JS.truthy publicKey) then
    throw "Public key unavailable for token verification"
  else jwt_verify token publicKey ["RS256"].

(** The [context] function of the ApolloServer. *)
Definition context (req : Request) : M Context :=
  let userId := JS.or_undef (headers req !! "x-user-id") "" in
  let userName := JS.or_undef (headers req !! "x-user-name") "Guest" in
  let userEmail := JS.or_undef (headers req !! "x-user-email") "" in
  let headerTeams := headers req !! "x-user-teams" in
  let userTeams :=
    match headerTeams with
    | Some h => if JS.truthy h then List.filter JS.truthy (JS.split "," h) else []
    | None => []
    end in
  let userRole := JS.or_undef (headers req !! "x-user-role") "user" in
  if negb (JS.truthy userId) then
    let authHeader := JS.or_undef (headers req !! "authorization") "" in
    let token :=
      if JS.startsWith authHeader "Bearer "
      then default "" (JS.split " " authHeader !! 1%nat)
      else authHeader in
    if JS.truthy token then
      try_catch
        (decoded <~ decodeToken token ;;
         ret (mkContext
                (JS.or_undef (Payload.userId decoded) userId)
                (JS.or_undef (Payload.name decoded) userName)
                (JS.or_undef (Payload.email decoded) userEmail)
                (match Payload.teams decoded with
                 | Some ts => ts
                 | None => userTeams
                 end)
                (JS.or_undef (Payload.role decoded) userRole)))
        (fun message =>
           console_write ("Task GraphQL API token verification fallback failed: "
                          ++ message) ;;;
           ret (mkContext userId userName userEmail userTeams userRole))
    else ret (mkContext userId userName userEmail userTeams userRole)
  else ret (mkContext userId userName userEmail userTeams userRole).

End IdentityVerifier.

(** The store at boot; [d1] .. [d5] are the five readings of the clock taken
    while the module is loaded. *)
Definition boot (d1 d2 d3 d4 d5 : string) : Server :=
  mkServer
    [ Task.mk "t1" "Setup project structure"
              "Inisialisasi repository, konfigurasi Docker, dan API Gateway."
              TODO "John Doe" d1 d2;
      Task.mk "t2" "Implement JWT authentication"
              "Integrasi JWT RS256 antara User Service dan API Gateway."
              IN_PROGRESS "Jane Smith" d3 d4 ]
    [ TaskActivity.mk "a1" "t2" "Task created" "Jane Smith" d5 ]
    "" [] [].

(** ** The states the server can be in *)

(** What runs without interruption.  A resolver is synchronous: one call
    is one step, a call that throws too (to the state it left behind).
    [context], [decodeToken] and [getAuthPublicKey] are asynchronous: a run
    that nothing interleaves with is one step ([step_context],
    [step_getAuthPublicKey]); when calls overlap, each stretch between two
    [await]s is a step of its own.  Of those stretches only two write the
    state: the turn of the fetch loop that handles a settled request
    ([step_settle_public_key], which does not test the cache again), and the
    warning of the [catch] in [context] ([step_verification_failed]). *)
Inductive step : Server -> Server -> Prop :=
| step_createTask uuidv4 now title description assignee ctx s r s' :
    Mutation.createTask uuidv4 now title description assignee ctx s = (r, s') ->
    step s s'
| step_updateTask now id title description status assignee ctx s r s' :
    Mutation.updateTask now id title description status assignee ctx s = (r, s') ->
    step s s'
| step_addTaskActivity uuidv4 now taskId message ctx s r s' :
    Mutation.addTaskActivity uuidv4 now taskId message ctx s = (r, s') ->
    step s s'
| step_deleteTask id ctx s r s' :
    Mutation.deleteTask id ctx s = (r, s') ->
    step s s'
| step_context w req s r s' :
    context w req s = (r, s') ->
    step s s'
| step_getAuthPublicKey w s r s' :
    getAuthPublicKey w s = (r, s') ->
    step s s'
| step_settle_public_key w endpoint s r s' :
    In endpoint (PUBLIC_KEY_ENDPOINTS w) ->
    settle_public_key w endpoint s = (r, s') ->
    step s s'
| step_verification_failed message s r s' :
    console_write ("Task GraphQL API token verification fallback failed: "
                   ++ message) s = (r, s') ->
    step s s'.

Inductive reachable : Server -> Prop :=
| reachable_boot d1 d2 d3 d4 d5 : reachable (boot d1 d2 d3 d4 d5)
| reachable_step s s' : reachable s -> step s s' -> reachable s'.

(** Every activity's [taskId] is the [id] of a task in the store. *)
Definition activities_reference_tasks (s : Server) : Prop :=
  forall a, In a (taskActivities s) ->
            exists t, In t (tasks s) /\ Task.id t = TaskActivity.taskId a.

(** Two states with the same tasks, activities and published events: they
    differ at most in the key cache and the console. *)
Definition same_store (s s' : Server) : Prop :=
  tasks s' = tasks s /\ taskActivities s' = taskActivities s
  /\ published s' = published s.

(** [task(id)] as a function of the state. *)
Definition lookup_task (id : string) (s : Server) : option Task.t :=
  List.find (fun t => JS.seq (Task.id t) id) (tasks s).

(** The position [findIndex] reports for [id], as an array index. *)
Definition task_index (id : string) (s : Server) : nat :=
  Z.to_nat (JS.findIndex (fun t => JS.seq (Task.id t) id) (tasks s)).

(** [Task.activities] as a function of the state. *)
Definition listActivities (taskId : string) (s : Server) : list TaskActivity.t :=
  List.filter (fun a => JS.seq (TaskActivity.taskId a) taskId) (taskActivities s).

(** The identity [context] builds from the headers alone. *)
Definition header_identity (req : Request) : Context :=
  mkContext
    (JS.or_undef (headers req !! "x-user-id") "")
    (JS.or_undef (headers req !! "x-user-name") "Guest")
    (JS.or_undef (headers req !! "x-user-email") "")
    (match headers req !! "x-user-teams" with
     | Some h => if JS.truthy h then List.filter JS.truthy (JS.split "," h) else []
     | None => []
     end)
    (JS.or_undef (headers req !! "x-user-role") "user").

(** The credential [context] extracts from the [authorization] header. *)
Definition bearer_token (req : Request) : string :=
  let authHeader := JS.or_undef (headers req !! "authorization") "" in
  if JS.startsWith authHeader "Bearer "
  then default "" (JS.split " " authHeader !! 1%nat)
  else authHeader.

(** The identity [context] builds from a verified payload, over the
    defaults taken from the headers. *)
Definition payload_identity (decoded : Payload.t) (dflt : Context) : Context :=
  mkContext
    (JS.or_undef (Payload.userId decoded) (userId dflt))
    (JS.or_undef (Payload.name decoded) (userName dflt))
    (JS.or_undef (Payload.email decoded) (userEmail dflt))
    (match Payload.teams decoded with
     | Some ts => ts
     | None => userTeams dflt
     end)
    (JS.or_undef (Payload.role decoded) (userRole dflt)).

(** Treat a supplied empty string as an absent argument. *)
Definition absent_if_empty (v : option string) : option string :=
  match v with
  | Some s => if JS.truthy s then Some s else None
  | None => None
  end.

(** [ctx] with another [userId]. *)
Definition with_userId (uid : string) (ctx : Context) : Context :=
  mkContext uid (userName ctx) (userEmail ctx) (userTeams ctx) (userRole ctx).

(** ** Concrete worlds and requests used in the examples *)

Module Examples.

Definition s0 : Server :=
  boot "2024-01-01T00:00:00.000Z" "2024-01-01T00:00:00.000Z"
       "2024-01-01T00:00:00.000Z" "2024-01-01T00:00:00.000Z"
       "2024-01-01T00:00:00.000Z".

Definition alice : Context := mkContext "u1" "Alice" "alice@example.com" [] "user".
Definition john : Context := mkContext "u2" "John Doe" "john@example.com" [] "user".
Definition bob : Context := mkContext "u3" "Bob" "bob@example.com" [] "user".
Definition root : Context := mkContext "u0" "Root" "root@example.com" [] "admin".
Definition guest : Context := mkContext "" "Guest" "" [] "user".

Definition noon : string := "2024-01-02T12:00:00.000Z".

Definition payload_alice : Payload.t :=
  Payload.mk (Some "u1") (Some "Alice") (Some "alice@example.com") None None.

(** The identity service is down: every key fetch is rejected. *)
Definition offline : World :=
  mkWorld None None
          (fun _ => inr "connect ECONNREFUSED")
          (fun _ => inr "jwt malformed") (fun _ _ => None)
          (fun _ _ _ => Some "invalid signature") (fun _ => None).

(** The identity service serves a key; the token ["hs.alice.sig"] carries
    an HS256 header and ["rs.alice.sig"] an RS256 header, both with a
    signature the primitive accepts; ["none.alice."] carries the header
    [alg: none] and no signature. *)
Definition online : World :=
  mkWorld None None
          (fun _ => inl "-----BEGIN PUBLIC KEY-----")
          (fun token =>
             if String.eqb token "hs.alice.sig" then inl ("HS256", payload_alice)
             else if String.eqb token "rs.alice.sig" then inl ("RS256", payload_alice)
             else if String.eqb token "none.alice." then inl ("none", payload_alice)
             else inr "jwt malformed")
          (fun token _ =>
             if String.eqb token "none.alice."
             then Some "jwt signature is required" else None)
          (fun _ _ _ => None) (fun _ => None).

(** The identity service now serves another key. *)
Definition rotated : World :=
  mkWorld None None
          (fun _ => inl "-----BEGIN PUBLIC KEY 2-----")
          (fun _ => inr "jwt malformed") (fun _ _ => None)
          (fun _ _ _ => Some "invalid signature") (fun _ => None).

Definition bearer (token : string) : Request :=
  mkRequest {[ "authorization" := "Bearer " ++ token ]}.

Definition no_headers : Request := mkRequest ∅.

End Examples.

(** ** The health endpoint *)

(** The body of the [/health] response. *)
Module Health.
Record t := mk {
  status : string;
  service : string;
  timestamp : string;
  tasks : nat;
  activities : nat
}.
End Health.

(** [app.get('/health', ...)]; [now] is the reading of the clock. *)
Definition health (now : string) (s : Server) : Health.t :=
  Health.mk "healthy" "task-graphql-api" now
            (length (tasks s)) (length (taskActivities s)).

(** ** The dashboard ([frontend-app/src/app/page.tsx]) *)

Module Dashboard.

(** [t.status === 'TODO'] and the like, on the enum the server sends. *)
Definition status_is (column : TaskStatus) (t : Task.t) : bool :=
  match column, Task.status t with
  | TODO, TODO | IN_PROGRESS, IN_PROGRESS | DONE, DONE => true
  | _, _ => false
  end.

Module Grouped.
Record t := mk {
  TODO : list Task.t;
  IN_PROGRESS : list Task.t;
  DONE : list Task.t
}.
End Grouped.

(** [const grouped = { TODO: tasks.filter(...), IN_PROGRESS: ..., DONE: ... }] *)
Definition grouped (tasks : list Task.t) : Grouped.t :=
  Grouped.mk (List.filter (status_is TODO) tasks)
             (List.filter (status_is IN_PROGRESS) tasks)
             (List.filter (status_is DONE) tasks).

(** The condition under which [TaskColumn] renders the Delete button:
    [userRole === 'admin' || task.assignee === userName]. *)
Definition delete_button (userRole userName : string) (task : Task.t) : bool :=
  JS.seq userRole "admin" || JS.seq (Task.assignee task) userName.

End Dashboard.

(** ** Vocabulary for the statements below *)

(** The characters of [s] do not include [c]. *)
Definition free_of (c : ascii) (s : string) : Prop :=
  ~ In c (list_ascii_of_string s).

(** A request with one more header. *)
Definition with_header (name value : string) (req : Request) : Request :=
  mkRequest (<[name := value]> (headers req)).


(** The ids of the tasks in the store, in order. *)
Definition task_ids (s : Server) : list string := map Task.id (tasks s).

(** ** Facts about the JavaScript helpers *)

Section JSFacts.

Lemma truthy_true (s : string) : JS.truthy s = true <-> s <> "".
Proof.
  unfold JS.truthy. rewrite negb_true_iff. split.
  - intros H ->. now rewrite String.eqb_refl in H.
  - intros H. now apply String.eqb_neq.
Qed.

Lemma truthy_false (s : string) : JS.truthy s = false <-> s = "".
Proof.
  unfold JS.truthy. rewrite negb_false_iff. apply String.eqb_eq.
Qed.

Lemma seq_true (a b : string) : JS.seq a b = true <-> a = b.
Proof. apply String.eqb_eq. Qed.

Lemma seq_false (a b : string) : JS.seq a b = false <-> a <> b.
Proof. apply String.eqb_neq. Qed.

Lemma or_truthy (a b : string) : b <> "" -> JS.or a b <> "".
Proof.
  intros Hb. unfold JS.or. destruct (JS.truthy a) eqn:E; [|exact Hb].
  now apply truthy_true.
Qed.

Lemma or_undef_truthy (v : option string) (b : string) :
  b <> "" -> JS.or_undef v b <> "".
Proof. destruct v; simpl; [apply or_truthy | auto]. Qed.

Context {A : Type} (p : A -> bool).

Lemma findIndex_lower (l : list A) : -1 <= JS.findIndex p l.
Proof.
  induction l as [|x l IH]; simpl; [lia|].
  destruct (p x); [lia|].
  destruct (Z.eqb_spec (JS.findIndex p l) (-1)); lia.
Qed.

Lemma findIndex_missing (l : list A) :
  List.find p l = None <-> JS.findIndex p l = -1.
Proof.
  induction l as [|x l IH]; simpl; [tauto|].
  destruct (p x).
  - split; [discriminate | lia].
  - rewrite IH. pose proof (findIndex_lower l).
    destruct (Z.eqb_spec (JS.findIndex p l) (-1)); split; intros; lia.
Qed.

Lemma findIndex_found (l : list A) (x : A) :
  List.find p l = Some x ->
  JS.findIndex p l <> -1 /\ l !! Z.to_nat (JS.findIndex p l) = Some x.
Proof.
  induction l as [|y l IH]; simpl; [discriminate|].
  destruct (p y) eqn:Hy.
  - intros [= ->]. split; [lia | reflexivity].
  - intros Hf. destruct (IH Hf) as [Hne Hl].
    pose proof (findIndex_lower l).
    destruct (Z.eqb_spec (JS.findIndex p l) (-1)); [contradiction|].
    split; [lia|].
    replace (Z.to_nat (JS.findIndex p l + 1)) with (S (Z.to_nat (JS.findIndex p l)))
      by lia.
    exact Hl.
Qed.

(** [find] looks into an appended part only when the front has no match. *)
Lemma find_push (l l' : list A) :
  List.find p l = None -> List.find p (l ++ l') = List.find p l'.
Proof.
  induction l as [|x l IH]; simpl; [reflexivity|].
  destruct (p x); [discriminate | exact IH].
Qed.

(** Below the index [findIndex] returns, nothing satisfies [p]. *)
Lemma findIndex_first (l : list A) (i : nat) (y : A) :
  (Z.of_nat i < JS.findIndex p l) -> l !! i = Some y -> p y = false.
Proof.
  revert i. induction l as [|x l IH]; intros i; simpl; [discriminate|].
  destruct (p x) eqn:Hx; [lia|].
  destruct (Z.eqb_spec (JS.findIndex p l) (-1)); [lia|].
  destruct i as [|i]; simpl.
  - intros _ [= <-]. exact Hx.
  - intros Hlt. apply IH. lia.
Qed.

End JSFacts.

(** ** How the mutations run *)

Section Runs.

Variables (now id : string) (title description : option string)
          (status : option TaskStatus) (assignee : option string)
          (ctx : Context) (s : Server).

Lemma lookup_task_id (task : Task.t) :
  lookup_task id s = Some task -> Task.id task = id /\ In task (tasks s).
Proof.
  intros H. apply find_some in H as [Hin Heq].
  split; [now apply seq_true | exact Hin].
Qed.

Lemma Query_task_run :
  Query.task id s = (Return (lookup_task id s), s).
Proof. reflexivity. Qed.

Lemma Query_activities_run (parent : Task.t) :
  Query.activities parent s = (Return (listActivities (Task.id parent) s), s).
Proof. reflexivity. Qed.

Lemma updateTask_missing :
  lookup_task id s = None ->
  Mutation.updateTask now id title description status assignee ctx s
  = (Throw "Task not found", s).
Proof.
  intros H. apply findIndex_missing in H.
  unfold Mutation.updateTask, bind, get. now rewrite H.
Qed.

Lemma updateTask_found (task : Task.t) :
  lookup_task id s = Some task ->
  Mutation.updateTask now id title description status assignee ctx s
  = if not_allowed ctx task
    then (Throw "You are not allowed to update this task.", s)
    else
      let updated :=
        Task.mk (Task.id task)
                (spread_string title (Task.title task))
                (spread_string description (Task.description task))
                (spread_status status (Task.status task))
                (spread_string assignee (Task.assignee task))
                (Task.createdAt task) now in
      (Return updated,
       mkServer (<[task_index id s := updated]> (tasks s)) (taskActivities s)
                (cachedAuthPublicKey s)
                (published s ++ [TASK_UPDATED updated]) (console s)).
Proof.
  intros H. apply findIndex_found in H as [Hne Hl].
  unfold Mutation.updateTask, bind, get.
  apply Z.eqb_neq in Hne. rewrite Hne, Hl.
  now destruct (not_allowed ctx task).
Qed.

Lemma deleteTask_missing :
  lookup_task id s = None ->
  Mutation.deleteTask id ctx s = (Return false, s).
Proof.
  intros H. apply findIndex_missing in H.
  unfold Mutation.deleteTask, bind, get. now rewrite H.
Qed.

Lemma deleteTask_found (task : Task.t) :
  lookup_task id s = Some task ->
  Mutation.deleteTask id ctx s
  = if not_allowed ctx task
    then (Throw "You are not allowed to delete this task.", s)
    else
      (Return true,
       mkServer (delete (task_index id s) (tasks s))
                (List.filter (fun a => negb (JS.seq (TaskActivity.taskId a) id))
                             (taskActivities s))
                (cachedAuthPublicKey s)
                (published s ++ [TASK_DELETED id]) (console s)).
Proof.
  intros H. apply findIndex_found in H as [Hne Hl].
  unfold Mutation.deleteTask, bind, get.
  apply Z.eqb_neq in Hne. rewrite Hne, Hl.
  now destruct (not_allowed ctx task).
Qed.

Lemma not_allowed_true (task : Task.t) :
  not_allowed ctx task = true
  <-> userRole ctx <> "admin" /\ userName ctx <> Task.assignee task.
Proof.
  unfold not_allowed. rewrite andb_true_iff, !negb_true_iff, !seq_false.
  split; intros [H1 H2]; split; auto.
Qed.

Lemma not_allowed_false (task : Task.t) :
  not_allowed ctx task = false
  <-> userRole ctx = "admin" \/ userName ctx = Task.assignee task.
Proof.
  unfold not_allowed. rewrite andb_false_iff, !negb_false_iff, !seq_true.
  split; intros [H|H]; auto.
Qed.

End Runs.

(** ** How identity verification runs *)

Section VerifierRuns.

Variable w : World.

Lemma same_store_refl (s : Server) : same_store s s.
Proof. now repeat split. Qed.

(** The fetch loop never throws: a rejected request is caught and the next
    endpoint is tried. *)
Lemma fetch_public_key_returns (endpoints : list string) (s : Server) :
  exists key s', fetch_public_key w endpoints s = (Return key, s')
                 /\ same_store s s'
                 /\ (key = "" -> cachedAuthPublicKey s' = cachedAuthPublicKey s)
                 /\ (key <> "" -> cachedAuthPublicKey s' = key).
Proof.
  revert s. induction endpoints as [|endpoint rest IH]; intros s; simpl.
  - exists "", s. repeat split; auto using same_store_refl. congruence.
  - destruct (axios_get w endpoint) as [data|message].
    + destruct (JS.truthy data) eqn:Hd.
      * exists data, (mkServer (tasks s) (taskActivities s) data (published s)
                         (console s ++ ["Task GraphQL API cached auth public key from "
                                          ++ endpoint])).
        apply truthy_true in Hd.
        repeat split; auto. intros ->. contradiction.
      * apply IH.
    + unfold bind, console_write, modify.
      destruct (IH (mkServer (tasks s) (taskActivities s) (cachedAuthPublicKey s)
                             (published s)
                             (console s
                                ++ ["Task GraphQL API failed to fetch public key from "
                                      ++ endpoint ++ ": " ++ message])))
        as (key & s' & Hrun & Hsame & Hk0 & Hk1).
      exists key, s'. split; [exact Hrun|]. split; [exact Hsame|]. split; auto.
Qed.

(** When no endpoint delivers a non-empty body, the loop returns ['']. *)
Lemma fetch_public_key_unavailable (endpoints : list string) (s : Server) :
  (forall e data, In e endpoints -> axios_get w e = inl data -> data = "") ->
  exists s', fetch_public_key w endpoints s = (Return "", s').
Proof.
  revert s. induction endpoints as [|endpoint rest IH]; intros s Hall; simpl.
  - now exists s.
  - destruct (axios_get w endpoint) as [data|message] eqn:Hget.
    + rewrite (Hall endpoint data); [|now left|exact Hget]. simpl.
      apply IH. intros e d He. apply Hall. now right.
    + unfold bind, console_write, modify. apply IH.
      intros e d He. apply Hall. now right.
Qed.

Lemma getAuthPublicKey_returns (s : Server) :
  exists key s', getAuthPublicKey w s = (Return key, s')
                 /\ same_store s s'
                 /\ (key <> "" -> cachedAuthPublicKey s' = key).
Proof.
  unfold getAuthPublicKey, bind, get.
  destruct (JS.truthy (cachedAuthPublicKey s)) eqn:Hc.
  - exists (cachedAuthPublicKey s), s. repeat split; auto.
  - destruct (fetch_public_key_returns (PUBLIC_KEY_ENDPOINTS w) s)
      as (key & s' & Hrun & Hsame & _ & Hk).
    exists key, s'. auto.
Qed.

(** The token library does not touch the server state. *)
Lemma jwt_verify_state (token key : string) (algorithms : list string)
    (s : Server) :
  snd (jwt_verify w token key algorithms s) = s.
Proof.
  unfold jwt_verify, throw, ret.
  repeat case_match; reflexivity.
Qed.

(** [decodeToken] leaves the store alone, whatever its outcome. *)
Lemma decodeToken_same_store (token : string) (s : Server) r s' :
  decodeToken w token s = (r, s') -> same_store s s'.
Proof.
  unfold decodeToken, bind.
  destruct (getAuthPublicKey_returns s) as (key & s1 & Hrun & Hsame & _).
  rewrite Hrun.
  destruct (JS.truthy key); simpl.
  - intros Hv. apply (f_equal snd) in Hv. rewrite jwt_verify_state in Hv.
    simpl in Hv. now subst s'.
  - now intros [= _ <-].
Qed.


(** The loop of [getAuthPublicKey] is a chain of turns. *)
Lemma fetch_public_key_turn (endpoint : string) (rest : list string) (s : Server) :
  fetch_public_key w (endpoint :: rest) s
  = match settle_public_key w endpoint s with
    | (Return (Some key), s') => (Return key, s')
    | (Return None, s') => fetch_public_key w rest s'
    | (Throw message, s') => (Throw message, s')
    end.
Proof.
  simpl. unfold settle_public_key.
  destruct (axios_get w endpoint) as [data|message]; [|reflexivity].
  now destruct (JS.truthy data).
Qed.

(** A turn leaves the store alone; if it writes the cache, it writes the
    non-empty body the endpoint answered with. *)
Lemma settle_public_key_writes (endpoint : string) (s : Server) r s' :
  settle_public_key w endpoint s = (r, s') ->
  same_store s s'
  /\ (cachedAuthPublicKey s' = cachedAuthPublicKey s
      \/ (axios_get w endpoint = inl (cachedAuthPublicKey s')
          /\ cachedAuthPublicKey s' <> "")).
Proof.
  unfold settle_public_key.
  destruct (axios_get w endpoint) as [data|message].
  - destruct (JS.truthy data) eqn:Hd; intros [= _ <-]; simpl.
    + apply truthy_true in Hd. split; [now repeat split | right; auto].
    + split; [apply same_store_refl | now left].
  - intros [= _ <-]. simpl. split; [now repeat split | now left].
Qed.

(** [context], case by case. *)
Lemma context_run (req : Request) (s : Server) :
  context w req s
  = if negb (JS.truthy (userId (header_identity req)))
       && JS.truthy (bearer_token req)
    then match decodeToken w (bearer_token req) s with
         | (Return decoded, s') =>
             (Return (payload_identity decoded (header_identity req)), s')
         | (Throw message, s') =>
             (Return (header_identity req),
              mkServer (tasks s') (taskActivities s') (cachedAuthPublicKey s')
                       (published s')
                       (console s'
                          ++ ["Task GraphQL API token verification fallback failed: "
                                ++ message]))
         end
    else (Return (header_identity req), s).
Proof.
  unfold context, header_identity, bearer_token. simpl.
  destruct (JS.truthy (JS.or_undef (headers req !! "x-user-id") "")); simpl;
    [reflexivity|].
  match goal with |- (if JS.truthy ?t then _ else _) _ = _ =>
    destruct (JS.truthy t) eqn:Ht end; [|reflexivity].
  unfold try_catch, bind.
  match goal with |- match (match ?d with _ => _ end) with _ => _ end = _ =>
    destruct d as [[decoded|message] s'] end; reflexivity.
Qed.

(** [context] never throws, and the display name it reports is never
    empty. *)
Lemma context_returns (req : Request) (s : Server) :
  exists ctx s', context w req s = (Return ctx, s')
                 /\ userName ctx <> "" /\ same_store s s'.
Proof.
  rewrite context_run.
  assert (Hh : userName (header_identity req) <> "")
    by (apply or_undef_truthy; discriminate).
  destruct (negb (JS.truthy (userId (header_identity req)))
            && JS.truthy (bearer_token req)).
  - destruct (decodeToken w (bearer_token req) s) as [[decoded|message] s'] eqn:Hd;
      apply decodeToken_same_store in Hd.
    + eexists _, _. split; [reflexivity|]. split; [|exact Hd].
      simpl. now apply or_undef_truthy.
    + eexists _, _. split; [reflexivity|]. split; [exact Hh|].
      destruct Hd as (A & B & C). now repeat split.
  - eexists _, _. split; [reflexivity|]. split; [exact Hh | apply same_store_refl].
Qed.

End VerifierRuns.

(** ** Arrays of tasks under [tasks[idx] = updated] and [tasks.splice(idx, 1)] *)

Section TaskArrays.

Variable id : string.

Local Abbreviation p := (fun t : Task.t => JS.seq (Task.id t) id).

(** After [tasks[idx] = updated], [task(id)] finds [updated]. *)
Lemma find_after_assignment (l : list Task.t) (task updated : Task.t) :
  List.find p l = Some task -> Task.id updated = id ->
  List.find p (<[Z.to_nat (JS.findIndex p l) := updated]> l) = Some updated.
Proof.
  intros Hf Hid. assert (Hu : p updated = true) by now apply seq_true.
  induction l as [|x l IH]; simpl in *; [discriminate|].
  destruct (p x) eqn:Hx.
  - simpl. now rewrite Hu.
  - destruct (findIndex_found p l task Hf) as [Hne _].
    pose proof (findIndex_lower p l).
    destruct (Z.eqb_spec (JS.findIndex p l) (-1)); [contradiction|].
    replace (Z.to_nat (JS.findIndex p l + 1)) with (S (Z.to_nat (JS.findIndex p l)))
      by lia.
    simpl. rewrite Hx. now apply IH.
Qed.

(** Assigning at an index keeps the ids that occur in the array when the
    new element has the id of the one it replaces. *)
Lemma ids_after_assignment (l : list Task.t) (i : nat) (task updated t : Task.t) :
  l !! i = Some task -> Task.id updated = Task.id task -> In t l ->
  exists t', In t' (<[i := updated]> l) /\ Task.id t' = Task.id t.
Proof.
  revert i. induction l as [|x l IH]; intros i Hl Hid Hin; [contradiction|].
  destruct i as [|i]; simpl in *.
  - injection Hl as ->. destruct Hin as [->|Hin].
    + exists updated. auto.
    + exists t. auto.
  - destruct Hin as [->|Hin].
    + exists t. auto.
    + destruct (IH i Hl Hid Hin) as (t' & Hin' & Heq). exists t'. auto.
Qed.

(** Removing the element at an index keeps every other id. *)
Lemma ids_after_splice (l : list Task.t) (i : nat) (task t : Task.t) :
  l !! i = Some task -> In t l -> Task.id t <> Task.id task ->
  In t (delete i l).
Proof.
  revert i. induction l as [|x l IH]; intros i Hl Hin Hne; [contradiction|].
  destruct i as [|i]; simpl in *.
  - injection Hl as ->. destruct Hin as [->|Hin]; [contradiction | exact Hin].
  - destruct Hin as [->|Hin]; [now left|]. right. now apply (IH i).
Qed.

(** With pairwise distinct ids, removing the task found for [id] leaves no
    task with that id. *)
Lemma find_after_splice (l : list Task.t) (task : Task.t) :
  NoDup (map Task.id l) -> List.find p l = Some task ->
  List.find p (delete (Z.to_nat (JS.findIndex p l)) l) = None.
Proof.
  intros Hnd Hf.
  induction l as [|x l IH]; simpl in *; [discriminate|].
  apply NoDup_cons in Hnd as [Hx Hnd].
  destruct (p x) eqn:Hpx.
  - simpl. apply seq_true in Hpx.
    destruct (List.find p l) as [y|] eqn:Hy; [|reflexivity].
    apply find_some in Hy as [Hin Hpy]. apply seq_true in Hpy.
    exfalso. apply Hx. apply list_elem_of_In, in_map_iff. exists y.
    split; [congruence | exact Hin].
  - destruct (findIndex_found p l task Hf) as [Hne _].
    pose proof (findIndex_lower p l).
    destruct (Z.eqb_spec (JS.findIndex p l) (-1)); [contradiction|].
    replace (Z.to_nat (JS.findIndex p l + 1)) with (S (Z.to_nat (JS.findIndex p l)))
      by lia.
    simpl. rewrite Hpx. now apply IH.
Qed.

End TaskArrays.

(** ** Referential integrity of activities *)

Section Integrity.

Lemma integrity_boot d1 d2 d3 d4 d5 :
  activities_reference_tasks (boot d1 d2 d3 d4 d5).
Proof.
  intros a [<-|[]]. simpl. eexists. split; [right; left; reflexivity | reflexivity].
Qed.

Lemma integrity_same_store (s s' : Server) :
  same_store s s' -> activities_reference_tasks s -> activities_reference_tasks s'.
Proof.
  intros (Ht & Ha & _) H a Hin. rewrite Ha in Hin. rewrite Ht. now apply H.
Qed.

Lemma integrity_createTask uuidv4 now title description assignee ctx s r s' :
  Mutation.createTask uuidv4 now title description assignee ctx s = (r, s') ->
  activities_reference_tasks s -> activities_reference_tasks s'.
Proof.
  unfold Mutation.createTask.
  destruct (JS.truthy (userId ctx)); simpl.
  - intros [= _ <-] H a Hin. simpl in *.
    destruct (H a Hin) as (t & Ht & Heq). exists t. split; [|exact Heq].
    apply in_or_app. now left.
  - now intros [= _ <-].
Qed.

Lemma integrity_updateTask now id title description status assignee ctx s r s' :
  Mutation.updateTask now id title description status assignee ctx s = (r, s') ->
  activities_reference_tasks s -> activities_reference_tasks s'.
Proof.
  destruct (lookup_task id s) as [task|] eqn:Hl.
  - rewrite (updateTask_found _ _ _ _ _ _ _ _ task Hl).
    destruct (not_allowed ctx task); [now intros [= _ <-]|].
    intros [= _ <-] H a Hin. simpl in *.
    destruct (H a Hin) as (t & Ht & Heq).
    apply findIndex_found in Hl as [_ Hidx].
    destruct (ids_after_assignment (tasks s) _ task
                (Task.mk (Task.id task)
                         (spread_string title (Task.title task))
                         (spread_string description (Task.description task))
                         (spread_status status (Task.status task))
                         (spread_string assignee (Task.assignee task))
                         (Task.createdAt task) now)
                t Hidx eq_refl Ht) as (t' & Hin' & Heq').
    exists t'. split; [exact Hin' | congruence].
  - rewrite (updateTask_missing _ _ _ _ _ _ _ _ Hl). now intros [= _ <-].
Qed.

Lemma integrity_addTaskActivity uuidv4 now taskId message ctx s r s' :
  Mutation.addTaskActivity uuidv4 now taskId message ctx s = (r, s') ->
  activities_reference_tasks s -> activities_reference_tasks s'.
Proof.
  unfold Mutation.addTaskActivity.
  destruct (JS.truthy (userId ctx)); simpl; [|now intros [= _ <-]].
  unfold bind, get.
  destruct (List.find _ (tasks s)) as [task|] eqn:Hf; [|now intros [= _ <-]].
  intros [= _ <-] H a Hin. simpl in *.
  apply in_app_or in Hin as [Hin|[<-|[]]].
  - now apply H.
  - apply find_some in Hf as [Hin Heq]. apply seq_true in Heq.
    exists task. auto.
Qed.

Lemma integrity_deleteTask id ctx s r s' :
  Mutation.deleteTask id ctx s = (r, s') ->
  activities_reference_tasks s -> activities_reference_tasks s'.
Proof.
  destruct (lookup_task id s) as [task|] eqn:Hl.
  - rewrite (deleteTask_found _ _ _ task Hl).
    destruct (not_allowed ctx task); [now intros [= _ <-]|].
    intros [= _ <-] H a Hin. simpl in *.
    apply filter_In in Hin as [Hin Hne].
    apply negb_true_iff, seq_false in Hne.
    destruct (H a Hin) as (t & Ht & Heq).
    destruct (lookup_task_id _ _ _ Hl) as [Hid _].
    apply findIndex_found in Hl as [_ Hidx].
    exists t. split; [|exact Heq].
    apply (ids_after_splice (tasks s) _ task t Hidx Ht). congruence.
  - rewrite (deleteTask_missing _ _ _ Hl). now intros [= _ <-].
Qed.

Lemma integrity_step (s s' : Server) :
  step s s' -> activities_reference_tasks s -> activities_reference_tasks s'.
Proof.
  intros Hstep. destruct Hstep as
    [ ? ? ? ? ? ? ? ? ? H | ? ? ? ? ? ? ? ? ? ? H | ? ? ? ? ? ? ? ? H
    | ? ? ? ? ? H | w req s r s' H | w s r s' H
    | w endpoint s r s' _ H | message s r s' H ].
  - eapply integrity_createTask; eauto.
  - eapply integrity_updateTask; eauto.
  - eapply integrity_addTaskActivity; eauto.
  - eapply integrity_deleteTask; eauto.
  - apply integrity_same_store.
    destruct (context_returns w req s) as (ctx & s1 & Hrun & _ & Hsame).
    rewrite Hrun in H. now injection H as _ <-.
  - apply integrity_same_store.
    destruct (getAuthPublicKey_returns w s) as (key & s1 & Hrun & Hsame & _).
    rewrite Hrun in H. now injection H as _ <-.
  - apply integrity_same_store.
    now destruct (settle_public_key_writes w endpoint s r s' H).
  - apply integrity_same_store. injection H as _ <-. now repeat split.
Qed.

(** In every state the server can reach, each activity belongs to a task
    of the store. *)
Lemma integrity_reachable (s : Server) :
  reachable s -> activities_reference_tasks s.
Proof.
  induction 1 as [d1 d2 d3 d4 d5 | s s' _ IH Hstep].
  - apply integrity_boot.
  - exact (integrity_step s s' Hstep IH).
Qed.

End Integrity.

(** ** Authorization of [updateTask] and [deleteTask] *)

Lemma lookup_task_none (id : string) (s : Server) :
  lookup_task id s = None <-> (forall t, In t (tasks s) -> Task.id t <> id).
Proof.
  unfold lookup_task. split.
  - intros H t Hin. apply seq_false. exact (find_none _ _ H t Hin).
  - intros H. destruct (List.find _ (tasks s)) as [t|] eqn:Hf; [|reflexivity].
    apply find_some in Hf as [Hin Heq]. apply seq_true in Heq.
    now destruct (H t Hin).
Qed.

(** C1. On an existing task, a caller whose role is not "admin" and whose
    userName differs from the task's assignee gets the "not allowed" error
    from [updateTask] and from [deleteTask], and the server state is the one
    before the call; a caller with role "admin" or with the assignee's
    userName gets a task back from [updateTask] and [true] from
    [deleteTask]. *)
Theorem C1_mutation_needs_admin_or_assignee
    (now id : string) (title description : option string)
    (status : option TaskStatus) (assignee : option string)
    (ctx : Context) (s : Server) (task : Task.t) :
  lookup_task id s = Some task ->
  (userRole ctx <> "admin" -> userName ctx <> Task.assignee task ->
   Mutation.updateTask now id title description status assignee ctx s
   = (Throw "You are not allowed to update this task.", s)
   /\ Mutation.deleteTask id ctx s
      = (Throw "You are not allowed to delete this task.", s))
  /\ (userRole ctx = "admin" \/ userName ctx = Task.assignee task ->
      (exists updated s',
          Mutation.updateTask now id title description status assignee ctx s
          = (Return updated, s'))
      /\ (exists s', Mutation.deleteTask id ctx s = (Return true, s'))).
Proof.
  intros Hl.
  rewrite (updateTask_found now id title description status assignee ctx s task Hl).
  rewrite (deleteTask_found id ctx s task Hl).
  split.
  - intros Hrole Hname.
    assert (Hna : not_allowed ctx task = true) by now apply not_allowed_true.
    now rewrite Hna.
  - intros Hok. apply not_allowed_false in Hok. rewrite Hok.
    split; eauto.
Qed.

Lemma C1_witness :
  (Mutation.updateTask Examples.noon "t1" None None (Some DONE) None
                       Examples.bob Examples.s0
   = (Throw "You are not allowed to update this task.", Examples.s0)
   /\ Mutation.deleteTask "t1" Examples.bob Examples.s0
      = (Throw "You are not allowed to delete this task.", Examples.s0))
  /\ ((exists updated s',
          Mutation.updateTask Examples.noon "t1" None None (Some DONE) None
                              Examples.john Examples.s0
          = (Return updated, s'))
      /\ (exists s', Mutation.deleteTask "t1" Examples.john Examples.s0
                     = (Return true, s'))).
Proof.
  split.
  - apply (C1_mutation_needs_admin_or_assignee
             Examples.noon "t1" None None (Some DONE) None Examples.bob Examples.s0
             (Task.mk "t1" "Setup project structure"
                      "Inisialisasi repository, konfigurasi Docker, dan API Gateway."
                      TODO "John Doe" "2024-01-01T00:00:00.000Z"
                      "2024-01-01T00:00:00.000Z") eq_refl); discriminate.
  - apply (C1_mutation_needs_admin_or_assignee
             Examples.noon "t1" None None (Some DONE) None Examples.john Examples.s0
             (Task.mk "t1" "Setup project structure"
                      "Inisialisasi repository, konfigurasi Docker, dan API Gateway."
                      TODO "John Doe" "2024-01-01T00:00:00.000Z"
                      "2024-01-01T00:00:00.000Z") eq_refl).
    right. reflexivity.
Defined.

(** ** [deleteTask] on an unknown id *)

(** C4. When no task of the store has the given id, [deleteTask] returns
    [false] for every caller (the authorization test is not reached), no
    error is thrown, and the state after the call is the state before it:
    no task or activity is touched and nothing is published. *)
Theorem C4_deleteTask_unknown_id_returns_false
    (id : string) (ctx : Context) (s : Server) :
  (forall t, In t (tasks s) -> Task.id t <> id) ->
  Mutation.deleteTask id ctx s = (Return false, s).
Proof.
  intros H. apply deleteTask_missing. now apply lookup_task_none.
Qed.

Lemma C4_witness :
  Mutation.deleteTask "t9" Examples.bob Examples.s0 = (Return false, Examples.s0).
Proof.
  apply (C4_deleteTask_unknown_id_returns_false "t9" Examples.bob Examples.s0).
  intros t [<-|[<-|[]]]; discriminate.
Defined.

(** ** [createTask] *)

(** C2, as stated, fails: an authenticated caller creating a task with an
    empty title gets the task back, and the store has grown by it. *)
Lemma C2_counterexample :
  Mutation.createTask "id-3" Examples.noon "" "B" (Some "Alice")
                      Examples.alice Examples.s0
  = (Return (Task.mk "id-3" "" "B" TODO "Alice" Examples.noon Examples.noon),
     mkServer
       (tasks Examples.s0
        ++ [Task.mk "id-3" "" "B" TODO "Alice" Examples.noon Examples.noon])
       (taskActivities Examples.s0) ""
       [TASK_CREATED (Task.mk "id-3" "" "B" TODO "Alice" Examples.noon Examples.noon)]
       []).
Proof. reflexivity. Qed.

(** C2, amended. [createTask] does not inspect title or description.  When
    one of them is the empty string, a caller with a non-empty userId gets
    the new task back, carrying the title and description as given, and the
    task is appended to the store; a caller with an empty userId gets the
    "Authentication required" error and the state is unchanged. *)
Theorem C2_createTask_accepts_empty_fields
    (uuidv4 now title description : string) (assignee : option string)
    (ctx : Context) (s : Server) :
  title = "" \/ description = "" ->
  (userId ctx <> "" ->
   exists task s',
     Mutation.createTask uuidv4 now title description assignee ctx s
     = (Return task, s')
     /\ Task.title task = title /\ Task.description task = description
     /\ tasks s' = (tasks s ++ [task])%list)
  /\ (userId ctx = "" ->
      Mutation.createTask uuidv4 now title description assignee ctx s
      = (Throw "Authentication required to create a task.", s)).
Proof.
  intros _. unfold Mutation.createTask. split.
  - intros Hid. apply truthy_true in Hid. rewrite Hid. simpl.
    eexists _, _. split; [reflexivity|]. simpl. auto.
  - intros ->. reflexivity.
Qed.

Lemma C2_witness :
  (exists task s',
      Mutation.createTask "id-3" Examples.noon "A" "" None Examples.alice Examples.s0
      = (Return task, s')
      /\ Task.title task = "A" /\ Task.description task = ""
      /\ tasks s' = (tasks Examples.s0 ++ [task])%list)
  /\ Mutation.createTask "id-3" Examples.noon "A" "" None Examples.guest Examples.s0
     = (Throw "Authentication required to create a task.", Examples.s0).
Proof.
  split.
  - apply (C2_createTask_accepts_empty_fields
             "id-3" Examples.noon "A" "" None Examples.alice Examples.s0).
    + right. reflexivity.
    + discriminate.
  - apply (C2_createTask_accepts_empty_fields
             "id-3" Examples.noon "A" "" None Examples.guest Examples.s0).
    + right. reflexivity.
    + reflexivity.
Defined.

(** C6. For a caller identity produced by the server's [context] function:
    when its userId is non-empty, [createTask] returns a task with status
    TODO, with createdAt and updatedAt both equal to the one clock reading
    of the call, with the id [uuidv4()] produced in the call, and with the
    caller's userName as assignee when the assignee argument is absent or
    empty (the supplied assignee otherwise); the task is appended to the
    store, published once, and found under its id when that id was not in
    use.  When the userId is empty the call throws "Authentication required
    to create a task." and the state is unchanged. *)
Theorem C6_createTask_result
    (w : World) (req : Request) (s0 s1 : Server) (ctx : Context)
    (uuidv4 now title description : string) (assignee : option string)
    (s : Server) :
  context w req s0 = (Return ctx, s1) ->
  (userId ctx <> "" ->
   exists task s',
     Mutation.createTask uuidv4 now title description assignee ctx s
     = (Return task, s')
     /\ Task.status task = TODO
     /\ Task.createdAt task = Task.updatedAt task
     /\ Task.updatedAt task = now
     /\ Task.id task = uuidv4
     /\ (absent_if_empty assignee = None -> Task.assignee task = userName ctx)
     /\ (forall a, absent_if_empty assignee = Some a -> Task.assignee task = a)
     /\ tasks s' = (tasks s ++ [task])%list
     /\ taskActivities s' = taskActivities s
     /\ published s' = (published s ++ [TASK_CREATED task])%list
     /\ ((forall t, In t (tasks s) -> Task.id t <> uuidv4) ->
         lookup_task uuidv4 s' = Some task))
  /\ (userId ctx = "" ->
      Mutation.createTask uuidv4 now title description assignee ctx s
      = (Throw "Authentication required to create a task.", s)).
Proof.
  intros Hctx.
  assert (Hname : userName ctx <> "").
  { destruct (context_returns w req s0) as (ctx' & s' & Hrun & Hn & _).
    rewrite Hrun in Hctx. now injection Hctx as <- _. }
  unfold Mutation.createTask. split.
  - intros Hid. apply truthy_true in Hid. rewrite Hid. simpl.
    eexists _, _. split; [reflexivity|]. simpl.
    apply truthy_true in Hname.
    repeat split.
    + destruct assignee as [a|]; simpl; [|unfold JS.or; now rewrite Hname].
      unfold JS.or. destruct (JS.truthy a); [discriminate|]. now rewrite Hname.
    + intros a. destruct assignee as [a'|]; simpl; [|discriminate].
      unfold JS.or. destruct (JS.truthy a') eqn:Ha; [|discriminate].
      now intros [= ->].
    + intros Hfresh. apply lookup_task_none in Hfresh.
      unfold lookup_task in *. simpl. rewrite (find_push _ _ _ Hfresh). simpl.
      unfold JS.seq. now rewrite String.eqb_refl.
  - intros ->. reflexivity.
Qed.

Lemma C6_witness :
  (exists task s',
      Mutation.createTask "id-3" Examples.noon "A" "B" None
                          Examples.alice Examples.s0
      = (Return task, s')
      /\ Task.status task = TODO
      /\ Task.createdAt task = Task.updatedAt task
      /\ Task.updatedAt task = Examples.noon
      /\ Task.id task = "id-3"
      /\ (absent_if_empty None = None -> Task.assignee task = "Alice")
      /\ (forall a, absent_if_empty None = Some a -> Task.assignee task = a)
      /\ tasks s' = (tasks Examples.s0 ++ [task])%list
      /\ taskActivities s' = taskActivities Examples.s0
      /\ published s' = (published Examples.s0 ++ [TASK_CREATED task])%list
      /\ ((forall t, In t (tasks Examples.s0) -> Task.id t <> "id-3") ->
          lookup_task "id-3" s' = Some task))
  /\ Mutation.createTask "id-3" Examples.noon "A" "B" None
                         Examples.guest Examples.s0
     = (Throw "Authentication required to create a task.", Examples.s0).
Proof.
  split.
  - apply (C6_createTask_result
             Examples.online (Examples.bearer "rs.alice.sig") Examples.s0
             (snd (context Examples.online (Examples.bearer "rs.alice.sig") Examples.s0))
             Examples.alice "id-3" Examples.noon "A" "B" None Examples.s0).
    + reflexivity.
    + discriminate.
  - apply (C6_createTask_result
             Examples.offline Examples.no_headers Examples.s0 Examples.s0
             Examples.guest "id-3" Examples.noon "A" "B" None Examples.s0).
    + reflexivity.
    + reflexivity.
Defined.

(** ** [updateTask] *)

(** C3, as stated, fails: Bob, who is neither admin nor the assignee of
    [t1], supplies only a status for the existing id [t1]; no task is
    returned and updatedAt is not stamped. *)
Lemma C3_counterexample :
  lookup_task "t1" Examples.s0
  = Some (Task.mk "t1" "Setup project structure"
                  "Inisialisasi repository, konfigurasi Docker, dan API Gateway."
                  TODO "John Doe" "2024-01-01T00:00:00.000Z"
                  "2024-01-01T00:00:00.000Z")
  /\ Mutation.updateTask Examples.noon "t1" None None (Some IN_PROGRESS) None
                         Examples.bob Examples.s0
     = (Throw "You are not allowed to update this task.", Examples.s0).
Proof. split; reflexivity. Qed.

(** C3, amended. For an [updateTask] call on an existing id by a caller
    with role "admin" or with the assignee's userName: the updated task is
    returned; each of title, description, status and assignee that is not
    supplied keeps its previous value, as do id and createdAt; updatedAt is
    the clock reading of the call; the updated task replaces the old one in
    the store and is what [task(id)] finds afterwards; activities are
    untouched.  For an unknown id the call throws "Task not found" and the
    state is unchanged. *)
Theorem C3_updateTask_merges_supplied_fields
    (now id : string) (title description : option string)
    (status : option TaskStatus) (assignee : option string)
    (ctx : Context) (s : Server) :
  (forall task,
      lookup_task id s = Some task ->
      userRole ctx = "admin" \/ userName ctx = Task.assignee task ->
      exists updated s',
        Mutation.updateTask now id title description status assignee ctx s
        = (Return updated, s')
        /\ (title = None -> Task.title updated = Task.title task)
        /\ (description = None -> Task.description updated = Task.description task)
        /\ (status = None -> Task.status updated = Task.status task)
        /\ (assignee = None -> Task.assignee updated = Task.assignee task)
        /\ Task.id updated = Task.id task
        /\ Task.createdAt updated = Task.createdAt task
        /\ Task.updatedAt updated = now
        /\ tasks s' = <[task_index id s := updated]> (tasks s)
        /\ lookup_task id s' = Some updated
        /\ taskActivities s' = taskActivities s)
  /\ (lookup_task id s = None ->
      Mutation.updateTask now id title description status assignee ctx s
      = (Throw "Task not found", s)).
Proof.
  split.
  - intros task Hl Hok.
    rewrite (updateTask_found now id title description status assignee ctx s task Hl).
    apply not_allowed_false in Hok. rewrite Hok.
    eexists _, _. split; [reflexivity|]. simpl.
    repeat split; try (now intros ->).
    unfold lookup_task, task_index. simpl.
    apply (find_after_assignment id (tasks s) task); [exact Hl|].
    simpl. now destruct (lookup_task_id id s task Hl).
  - apply updateTask_missing.
Qed.

Lemma C3_witness :
  (exists updated s',
      Mutation.updateTask Examples.noon "t1" None None (Some IN_PROGRESS) None
                          Examples.john Examples.s0
      = (Return updated, s')
      /\ Task.title updated = "Setup project structure"
      /\ Task.assignee updated = "John Doe"
      /\ Task.updatedAt updated = Examples.noon
      /\ lookup_task "t1" s' = Some updated)
  /\ Mutation.updateTask Examples.noon "t9" None None (Some IN_PROGRESS) None
                         Examples.john Examples.s0
     = (Throw "Task not found", Examples.s0).
Proof.
  split.
  - destruct (C3_updateTask_merges_supplied_fields
                Examples.noon "t1" None None (Some IN_PROGRESS) None
                Examples.john Examples.s0) as [H _].
    destruct (H (Task.mk "t1" "Setup project structure"
                   "Inisialisasi repository, konfigurasi Docker, dan API Gateway."
                   TODO "John Doe" "2024-01-01T00:00:00.000Z"
                   "2024-01-01T00:00:00.000Z") eq_refl (or_intror eq_refl))
      as (updated & s' & Hrun & Ht & _ & _ & Ha & _ & _ & Hu & _ & Hl & _).
    exists updated, s'. repeat split; auto.
  - apply (C3_updateTask_merges_supplied_fields
             Examples.noon "t9" None None (Some IN_PROGRESS) None
             Examples.john Examples.s0).
    reflexivity.
Defined.

Lemma spread_string_absent_if_empty (v : option string) (old : string) :
  spread_string (absent_if_empty v) old = spread_string v old.
Proof.
  destruct v as [a|]; simpl; [|reflexivity].
  destruct (JS.truthy a) eqn:Ha; simpl; [now rewrite Ha | reflexivity].
Qed.

Lemma spread_string_nonempty (v : option string) (old : string) :
  old <> "" -> spread_string v old <> "".
Proof.
  intros Hold. destruct v as [a|]; simpl; [|exact Hold].
  destruct (JS.truthy a) eqn:Ha; [now apply truthy_true | exact Hold].
Qed.

(** C10. In [updateTask] an argument supplied as the empty string has the
    effect of an absent argument: the call with the empty strings dropped is
    the same computation, and the task keeps the previous value of such a
    field.  Hence the update never turns a non-empty title, description or
    assignee into the empty string. *)
Theorem C10_empty_string_is_absent
    (now id : string) (title description : option string)
    (status : option TaskStatus) (assignee : option string)
    (ctx : Context) (s : Server) :
  Mutation.updateTask now id (absent_if_empty title) (absent_if_empty description)
                      status (absent_if_empty assignee) ctx s
  = Mutation.updateTask now id title description status assignee ctx s
  /\ (forall task updated s',
         lookup_task id s = Some task ->
         Mutation.updateTask now id title description status assignee ctx s
         = (Return updated, s') ->
         (title = Some "" -> Task.title updated = Task.title task)
         /\ (description = Some "" -> Task.description updated = Task.description task)
         /\ (assignee = Some "" -> Task.assignee updated = Task.assignee task)
         /\ (Task.title task <> "" -> Task.title updated <> "")
         /\ (Task.description task <> "" -> Task.description updated <> "")
         /\ (Task.assignee task <> "" -> Task.assignee updated <> "")).
Proof.
  split.
  - destruct (lookup_task id s) as [task|] eqn:Hl.
    + rewrite !(updateTask_found _ _ _ _ _ _ _ _ task Hl).
      now rewrite !spread_string_absent_if_empty.
    + now rewrite !(updateTask_missing _ _ _ _ _ _ _ _ Hl).
  - intros task updated s' Hl.
    rewrite (updateTask_found _ _ _ _ _ _ _ _ task Hl).
    destruct (not_allowed ctx task); [discriminate|].
    intros [= <- _]. simpl.
    repeat split; try (now intros ->); apply spread_string_nonempty.
Qed.

Lemma C10_witness :
  let t1 := Task.mk "t1" "Setup project structure"
                    "Inisialisasi repository, konfigurasi Docker, dan API Gateway."
                    TODO "John Doe" "2024-01-01T00:00:00.000Z"
                    "2024-01-01T00:00:00.000Z" in
  let updated := Task.mk "t1" "Setup project structure"
                    "Inisialisasi repository, konfigurasi Docker, dan API Gateway."
                    TODO "John Doe" "2024-01-01T00:00:00.000Z" Examples.noon in
  Mutation.updateTask Examples.noon "t1" None None None None
                      Examples.john Examples.s0
  = Mutation.updateTask Examples.noon "t1" (Some "") (Some "") None (Some "")
                        Examples.john Examples.s0
  /\ fst (Mutation.updateTask Examples.noon "t1" (Some "") (Some "") None (Some "")
                              Examples.john Examples.s0)
     = Return updated
  /\ Task.title updated = Task.title t1
  /\ Task.assignee updated = Task.assignee t1
  /\ Task.description updated <> "".
Proof.
  intros t1 updated.
  destruct (C10_empty_string_is_absent
              Examples.noon "t1" (Some "") (Some "") None (Some "")
              Examples.john Examples.s0) as [Hsame Hkeep].
  split; [exact Hsame|]. split; [reflexivity|].
  destruct (Hkeep t1 updated
              (snd (Mutation.updateTask Examples.noon "t1" (Some "") (Some "") None
                                        (Some "") Examples.john Examples.s0))
              eq_refl eq_refl) as (Ht & _ & Ha & _ & Hd & _).
  split; [exact (Ht eq_refl)|]. split; [exact (Ha eq_refl)|].
  apply Hd. discriminate.
Defined.

(** ** [deleteTask] on an existing task *)

Lemma listActivities_after_purge (id : string) (acts : list TaskActivity.t) :
  List.filter (fun a => JS.seq (TaskActivity.taskId a) id)
              (List.filter (fun a => negb (JS.seq (TaskActivity.taskId a) id)) acts)
  = [].
Proof.
  induction acts as [|a acts IH]; simpl; [reflexivity|].
  destruct (JS.seq (TaskActivity.taskId a) id) eqn:Ha; simpl; [exact IH|].
  now rewrite Ha.
Qed.

(** C5. In any state the server can reach, a [deleteTask] call that returns
    [true] removes, within that one call, the task found for the id and every
    activity whose taskId is that id: afterwards no activity carries the id,
    listing the activities of the id gives the empty list, every remaining
    activity still refers to a task of the store, and (ids being pairwise
    distinct) no task with that id is left.  One task-deleted event is
    published. *)
Theorem C5_deleteTask_purges_activities
    (id : string) (ctx : Context) (s s' : Server) :
  reachable s ->
  Mutation.deleteTask id ctx s = (Return true, s') ->
  (exists task,
      lookup_task id s = Some task
      /\ tasks s !! task_index id s = Some task
      /\ tasks s' = delete (task_index id s) (tasks s))
  /\ taskActivities s'
     = List.filter (fun a => negb (JS.seq (TaskActivity.taskId a) id))
                   (taskActivities s)
  /\ (forall a, In a (taskActivities s') -> TaskActivity.taskId a <> id)
  /\ listActivities id s' = []
  /\ activities_reference_tasks s'
  /\ (NoDup (map Task.id (tasks s)) -> lookup_task id s' = None)
  /\ published s' = (published s ++ [TASK_DELETED id])%list.
Proof.
  intros Hreach Hrun.
  pose proof (integrity_deleteTask id ctx s _ s' Hrun (integrity_reachable s Hreach))
    as Hint.
  destruct (lookup_task id s) as [task|] eqn:Hl.
  - rewrite (deleteTask_found id ctx s task Hl) in Hrun.
    destruct (not_allowed ctx task); [discriminate|].
    injection Hrun as <-. simpl in Hint |- *.
    split.
    { exists task. split; [reflexivity|]. split; [|reflexivity].
      now apply findIndex_found in Hl as [_ Hidx]. }
    split; [reflexivity|].
    split.
    { intros a Hin. apply filter_In in Hin as [_ Hne].
      now apply negb_true_iff, seq_false in Hne. }
    split; [apply listActivities_after_purge|].
    split; [exact Hint|].
    split; [|reflexivity].
    intros Hnd. unfold lookup_task, task_index. simpl.
    now apply (find_after_splice id (tasks s) task).
  - rewrite (deleteTask_missing id ctx s Hl) in Hrun. discriminate.
Qed.

Lemma C5_witness :
  listActivities "t2" (snd (Mutation.deleteTask "t2" Examples.root Examples.s0)) = []
  /\ activities_reference_tasks
       (snd (Mutation.deleteTask "t2" Examples.root Examples.s0))
  /\ lookup_task "t2" (snd (Mutation.deleteTask "t2" Examples.root Examples.s0))
     = None.
Proof.
  destruct (C5_deleteTask_purges_activities
              "t2" Examples.root Examples.s0
              (snd (Mutation.deleteTask "t2" Examples.root Examples.s0))
              (reachable_boot _ _ _ _ _) eq_refl)
    as (_ & _ & _ & Hlist & Hint & Hgone & _).
  split; [exact Hlist|]. split; [exact Hint|].
  apply Hgone. apply (bool_decide_unpack _). reflexivity.
Defined.

(** ** Bearer credentials *)

(** C7, as stated, fails: with the identity service unreachable, a request
    whose only header is [authorization: Bearer garbage] is not failed.
    [context] returns the anonymous identity, and the only trace of the
    failed verification is on the server's console. *)
Lemma C7_counterexample :
  context Examples.offline (Examples.bearer "garbage") Examples.s0
  = (Return (mkContext "" "Guest" "" [] "user"),
     mkServer
       (tasks Examples.s0) (taskActivities Examples.s0) "" []
       [ "Task GraphQL API failed to fetch public key from http://rest-api:3001/api/auth/public-key: connect ECONNREFUSED";
         "Task GraphQL API failed to fetch public key from http://localhost:3001/api/auth/public-key: connect ECONNREFUSED";
         "Task GraphQL API token verification fallback failed: Public key unavailable for token verification" ]).
Proof. reflexivity. Qed.

(** C7, amended. For a request with a bearer credential and no x-user-id
    header, [decodeToken] either returns the token's payload, and [context]
    builds the caller identity from it, or throws; with an empty key cache
    and no endpoint delivering a key it throws "Public key unavailable for
    token verification".  [context] catches the failure, writes one warning
    to the console and returns the identity given by the headers and their
    defaults, which is the anonymous identity when no identity header is
    present.  The request itself is not failed. *)
Theorem C7_failed_verification_falls_back
    (w : World) (req : Request) (s : Server) :
  userId (header_identity req) = "" ->
  bearer_token req <> "" ->
  ((exists decoded s',
       decodeToken w (bearer_token req) s = (Return decoded, s')
       /\ context w req s
          = (Return (payload_identity decoded (header_identity req)), s'))
   \/ (exists message s',
          decodeToken w (bearer_token req) s = (Throw message, s')
          /\ context w req s
             = (Return (header_identity req),
                mkServer (tasks s') (taskActivities s') (cachedAuthPublicKey s')
                         (published s')
                         (console s'
                            ++ ["Task GraphQL API token verification fallback failed: "
                                  ++ message]))))
  /\ (cachedAuthPublicKey s = "" ->
      (forall e data, In e (PUBLIC_KEY_ENDPOINTS w) ->
                      axios_get w e = inl data -> data = "") ->
      exists s',
        decodeToken w (bearer_token req) s
        = (Throw "Public key unavailable for token verification", s'))
  /\ (headers req !! "x-user-name" = None ->
      headers req !! "x-user-email" = None ->
      headers req !! "x-user-teams" = None ->
      headers req !! "x-user-role" = None ->
      header_identity req = mkContext "" "Guest" "" [] "user").
Proof.
  intros Hid Htok. split; [|split].
  - rewrite context_run, Hid. apply truthy_true in Htok. rewrite Htok. simpl.
    destruct (decodeToken w (bearer_token req) s) as [[decoded|message] s'].
    + left. eauto.
    + right. eauto.
  - intros Hcache Hall. unfold decodeToken, getAuthPublicKey, bind, get.
    rewrite Hcache. simpl.
    destruct (fetch_public_key_unavailable w (PUBLIC_KEY_ENDPOINTS w) s Hall)
      as (s' & Hrun).
    rewrite Hrun. simpl. eauto.
  - intros Hn He Ht Hr. unfold header_identity in *. simpl in Hid.
    rewrite Hn, He, Ht, Hr. simpl. now rewrite Hid.
Qed.

Lemma C7_witness :
  (exists message s',
      decodeToken Examples.online (bearer_token (Examples.bearer "hs.alice.sig"))
                  Examples.s0
      = (Throw message, s')
      /\ fst (context Examples.online (Examples.bearer "hs.alice.sig") Examples.s0)
         = Return (mkContext "" "Guest" "" [] "user"))
  /\ (exists s',
         decodeToken Examples.offline (bearer_token (Examples.bearer "garbage"))
                     Examples.s0
         = (Throw "Public key unavailable for token verification", s')).
Proof.
  split.
  - destruct (C7_failed_verification_falls_back
                Examples.online (Examples.bearer "hs.alice.sig") Examples.s0
                eq_refl ltac:(discriminate))
      as ([(decoded & s' & Hd & _)|(message & s' & Hd & Hc)] & _ & _).
    + discriminate Hd.
    + exists message, s'. split; [exact Hd|]. now rewrite Hc.
  - destruct (C7_failed_verification_falls_back
                Examples.offline (Examples.bearer "garbage") Examples.s0
                eq_refl ltac:(discriminate)) as (_ & Hkey & _).
    apply Hkey; [reflexivity|].
    intros e data _. discriminate.
Defined.



(** ** Anonymous callers *)

(** C9. [updateTask] and [deleteTask] never read the caller's userId: the
    calls compute the same with any other userId.  So for a caller with an
    empty userId whose role is "admin" or whose userName is the task's
    assignee the mutation is carried out: [updateTask] returns the merged
    task, stamped with the clock reading, writes it over the stored one and
    publishes it; [deleteTask] returns [true], removes the task and its
    activities and publishes the id.  In particular a request without any
    header gets the identity with empty userId and userName "Guest", and
    with it any task assigned to "Guest" is updated and deleted in that
    way. *)
Theorem C9_mutations_skip_authentication
    (now id : string) (title description : option string)
    (status : option TaskStatus) (assignee : option string)
    (ctx : Context) (s : Server) :
  (forall uid,
      Mutation.updateTask now id title description status assignee
                          (with_userId uid ctx) s
      = Mutation.updateTask now id title description status assignee ctx s
      /\ Mutation.deleteTask id (with_userId uid ctx) s
         = Mutation.deleteTask id ctx s)
  /\ (forall task,
         lookup_task id s = Some task ->
         let updated :=
           Task.mk (Task.id task)
                   (spread_string title (Task.title task))
                   (spread_string description (Task.description task))
                   (spread_status status (Task.status task))
                   (spread_string assignee (Task.assignee task))
                   (Task.createdAt task) now in
         let after_update :=
           mkServer (<[task_index id s := updated]> (tasks s)) (taskActivities s)
                    (cachedAuthPublicKey s)
                    (published s ++ [TASK_UPDATED updated]) (console s) in
         let after_delete :=
           mkServer (delete (task_index id s) (tasks s))
                    (List.filter (fun a => negb (JS.seq (TaskActivity.taskId a) id))
                                 (taskActivities s))
                    (cachedAuthPublicKey s)
                    (published s ++ [TASK_DELETED id]) (console s) in
         (userId ctx = "" ->
          userRole ctx = "admin" \/ userName ctx = Task.assignee task ->
          Mutation.updateTask now id title description status assignee ctx s
          = (Return updated, after_update)
          /\ lookup_task id after_update = Some updated
          /\ Mutation.deleteTask id ctx s = (Return true, after_delete)
          /\ listActivities id after_delete = [])
         /\ (Task.assignee task = "Guest" ->
             forall w s0,
             exists anon,
               context w (mkRequest ∅) s0 = (Return anon, s0)
               /\ userId anon = "" /\ userName anon = "Guest"
               /\ Mutation.updateTask now id title description status assignee anon s
                  = (Return updated, after_update)
               /\ Mutation.deleteTask id anon s = (Return true, after_delete))).
Proof.
  split.
  - intros uid. split; reflexivity.
  - intros task Hl updated after_update after_delete.
    assert (Hfound : lookup_task id after_update = Some updated).
    { unfold lookup_task, after_update, task_index. simpl.
      apply (find_after_assignment id (tasks s) task); [exact Hl|].
      simpl. now destruct (lookup_task_id id s task Hl). }
    split.
    + intros _ Hok. apply not_allowed_false in Hok.
      rewrite (updateTask_found _ _ _ _ _ _ _ _ task Hl).
      rewrite (deleteTask_found _ _ _ task Hl).
      rewrite Hok. split; [reflexivity|]. split; [exact Hfound|].
      split; [reflexivity|]. apply listActivities_after_purge.
    + intros Hguest w s0.
      exists (mkContext "" "Guest" "" [] "user").
      split; [now rewrite context_run|].
      split; [reflexivity|]. split; [reflexivity|].
      rewrite (updateTask_found _ _ _ _ _ _ _ _ task Hl).
      rewrite (deleteTask_found _ _ _ task Hl).
      assert (Hok : not_allowed (mkContext "" "Guest" "" [] "user") task = false).
      { apply not_allowed_false. right. simpl. now rewrite Hguest. }
      rewrite Hok. split; reflexivity.
Qed.

Lemma C9_witness :
  let s1 := snd (Mutation.createTask "id-3" Examples.noon "A" "B" (Some "Guest")
                                     Examples.alice Examples.s0) in
  let updated := Task.mk "id-3" "A" "B" DONE "Guest" Examples.noon "later" in
  let after_update :=
    mkServer (tasks Examples.s0 ++ [updated]) (taskActivities s1) ""
             (published s1 ++ [TASK_UPDATED updated]) [] in
  let after_delete :=
    mkServer (tasks Examples.s0) (taskActivities s1) ""
             (published s1 ++ [TASK_DELETED "id-3"]) [] in
  (Mutation.updateTask "later" "id-3" None None (Some DONE) None Examples.guest s1
   = (Return updated, after_update)
   /\ lookup_task "id-3" after_update = Some updated
   /\ Mutation.deleteTask "id-3" Examples.guest s1 = (Return true, after_delete)
   /\ listActivities "id-3" after_delete = [])
  /\ (exists anon,
         context Examples.offline (mkRequest ∅) s1 = (Return anon, s1)
         /\ userId anon = "" /\ userName anon = "Guest"
         /\ Mutation.updateTask "later" "id-3" None None (Some DONE) None anon s1
            = (Return updated, after_update)
         /\ Mutation.deleteTask "id-3" anon s1 = (Return true, after_delete)).
Proof.
  intros s1 updated after_update after_delete.
  destruct (C9_mutations_skip_authentication
              "later" "id-3" None None (Some DONE) None Examples.guest s1)
    as (_ & Hanon).
  destruct (Hanon (Task.mk "id-3" "A" "B" TODO "Guest" Examples.noon Examples.noon)
                  eq_refl) as [Hempty Hguest].
  split.
  - exact (Hempty eq_refl (or_intror eq_refl)).
  - exact (Hguest eq_refl Examples.offline s1).
Defined.

(** ** More on how the mutations run *)

Section MoreRuns.

Variables (uuidv4 now : string) (ctx : Context) (s : Server).

Lemma createTask_run (title description : string) (assignee : option string) :
  Mutation.createTask uuidv4 now title description assignee ctx s
  = if JS.truthy (userId ctx)
    then
      let task :=
        Task.mk uuidv4 title description TODO
                (JS.or_undef assignee (JS.or (userName ctx) "Unassigned"))
                now now in
      (Return task,
       mkServer (tasks s ++ [task]) (taskActivities s) (cachedAuthPublicKey s)
                (published s ++ [TASK_CREATED task]) (console s))
    else (Throw "Authentication required to create a task.", s).
Proof.
  unfold Mutation.createTask. now destruct (JS.truthy (userId ctx)).
Qed.

Lemma addTaskActivity_run (taskId message : string) :
  Mutation.addTaskActivity uuidv4 now taskId message ctx s
  = if JS.truthy (userId ctx)
    then
      match lookup_task taskId s with
      | None => (Throw "Task not found", s)
      | Some _ =>
          let activity :=
            TaskActivity.mk uuidv4 taskId message
                            (JS.or (userName ctx) "Unknown") now in
          (Return activity,
           mkServer (tasks s) (taskActivities s ++ [activity])
                    (cachedAuthPublicKey s)
                    (published s ++ [TASK_ACTIVITY_ADDED activity]) (console s))
      end
    else (Throw "Authentication required to add activity.", s).
Proof.
  unfold Mutation.addTaskActivity, lookup_task, bind, get.
  destruct (JS.truthy (userId ctx)); simpl; [|reflexivity].
  now destruct (List.find _ (tasks s)).
Qed.

End MoreRuns.

(** ** [addTaskActivity] *)

(** X1. [addTaskActivity] tests the caller before the task: with an empty
    userId it throws "Authentication required to add activity." whether or
    not the task exists; with a non-empty userId and an id no task has it
    throws "Task not found".  In both cases the state is unchanged. *)
Theorem X1_addTaskActivity_errors
    (uuidv4 now taskId message : string) (ctx : Context) (s : Server) :
  (userId ctx = "" ->
   Mutation.addTaskActivity uuidv4 now taskId message ctx s
   = (Throw "Authentication required to add activity.", s))
  /\ (userId ctx <> "" ->
      (forall t, In t (tasks s) -> Task.id t <> taskId) ->
      Mutation.addTaskActivity uuidv4 now taskId message ctx s
      = (Throw "Task not found", s)).
Proof.
  rewrite addTaskActivity_run. split.
  - intros ->. reflexivity.
  - intros Hid Hnone. apply truthy_true in Hid. rewrite Hid.
    apply lookup_task_none in Hnone. now rewrite Hnone.
Qed.

Lemma X1_witness :
  Mutation.addTaskActivity "id-a" Examples.noon "t9" "note" Examples.guest Examples.s0
  = (Throw "Authentication required to add activity.", Examples.s0)
  /\ Mutation.addTaskActivity "id-a" Examples.noon "t9" "note" Examples.bob Examples.s0
     = (Throw "Task not found", Examples.s0).
Proof.
  split.
  - apply (X1_addTaskActivity_errors
             "id-a" Examples.noon "t9" "note" Examples.guest Examples.s0).
    reflexivity.
  - apply (X1_addTaskActivity_errors
             "id-a" Examples.noon "t9" "note" Examples.bob Examples.s0).
    + discriminate.
    + intros t [<-|[<-|[]]]; discriminate.
Defined.

(** X2. Any caller with a non-empty userId may comment on any existing
    task, assignee or not, with any message (the empty one included).  The
    activity returned carries the given taskId and message, the id and clock
    reading of the call, and as author the caller's userName ("Unknown" when
    that is empty); it becomes the last entry of the task's activity list
    and is published once. *)
Theorem X2_addTaskActivity_appends
    (uuidv4 now taskId message : string) (ctx : Context) (s : Server)
    (task : Task.t) :
  userId ctx <> "" ->
  lookup_task taskId s = Some task ->
  exists activity s',
    Mutation.addTaskActivity uuidv4 now taskId message ctx s = (Return activity, s')
    /\ activity = TaskActivity.mk uuidv4 taskId message
                                  (JS.or (userName ctx) "Unknown") now
    /\ (userName ctx <> "" -> TaskActivity.author activity = userName ctx)
    /\ listActivities taskId s' = (listActivities taskId s ++ [activity])%list
    /\ published s' = (published s ++ [TASK_ACTIVITY_ADDED activity])%list.
Proof.
  intros Hid Hl. rewrite addTaskActivity_run.
  apply truthy_true in Hid. rewrite Hid, Hl.
  eexists _, _. split; [reflexivity|]. split; [reflexivity|].
  split; [|split; [|reflexivity]].
  - intros Hn. apply truthy_true in Hn. simpl. unfold JS.or. now rewrite Hn.
  - unfold listActivities. simpl. rewrite List.filter_app. simpl.
    unfold JS.seq. now rewrite String.eqb_refl.
Qed.

Lemma X2_witness :
  exists activity s',
    Mutation.addTaskActivity "id-a" Examples.noon "t1" "" Examples.bob Examples.s0
    = (Return activity, s')
    /\ activity = TaskActivity.mk "id-a" "t1" "" "Bob" Examples.noon
    /\ listActivities "t1" s' = [activity].
Proof.
  destruct (X2_addTaskActivity_appends
              "id-a" Examples.noon "t1" "" Examples.bob Examples.s0
              (Task.mk "t1" "Setup project structure"
                 "Inisialisasi repository, konfigurasi Docker, dan API Gateway."
                 TODO "John Doe" "2024-01-01T00:00:00.000Z"
                 "2024-01-01T00:00:00.000Z")
              ltac:(discriminate) eq_refl)
    as (activity & s' & Hrun & Hact & _ & Hlist & _).
  exists activity, s'. split; [exact Hrun|]. split; [exact Hact|]. exact Hlist.
Defined.

(** X3. [addTaskActivity] writes nothing but the activity: whatever its
    outcome, the tasks are exactly as before (the commented task's
    updatedAt is not stamped) and the activity list of every other task is
    unchanged. *)
Theorem X3_addTaskActivity_frame
    (uuidv4 now taskId message : string) (ctx : Context) (s : Server)
    (r : completion TaskActivity.t) (s' : Server) :
  Mutation.addTaskActivity uuidv4 now taskId message ctx s = (r, s') ->
  tasks s' = tasks s
  /\ (forall other, other <> taskId -> listActivities other s' = listActivities other s)
  /\ cachedAuthPublicKey s' = cachedAuthPublicKey s
  /\ console s' = console s.
Proof.
  rewrite addTaskActivity_run.
  destruct (JS.truthy (userId ctx)); [|now intros [= _ <-]].
  destruct (lookup_task taskId s); [|now intros [= _ <-]].
  intros [= _ <-]. simpl. repeat split.
  intros other Hne. unfold listActivities. simpl. rewrite List.filter_app. simpl.
  assert (Hf : JS.seq taskId other = false) by (apply seq_false; congruence).
  rewrite Hf. apply app_nil_r.
Qed.

Lemma X3_witness :
  tasks (snd (Mutation.addTaskActivity "id-a" Examples.noon "t1" "note"
                                       Examples.bob Examples.s0))
  = tasks Examples.s0
  /\ listActivities "t2"
       (snd (Mutation.addTaskActivity "id-a" Examples.noon "t1" "note"
                                      Examples.bob Examples.s0))
     = listActivities "t2" Examples.s0.
Proof.
  destruct (X3_addTaskActivity_frame
              "id-a" Examples.noon "t1" "note" Examples.bob Examples.s0
              (fst (Mutation.addTaskActivity "id-a" Examples.noon "t1" "note"
                                             Examples.bob Examples.s0))
              (snd (Mutation.addTaskActivity "id-a" Examples.noon "t1" "note"
                                             Examples.bob Examples.s0))
              eq_refl) as (Ht & Hother & _).
  split; [exact Ht|]. apply Hother. discriminate.
Defined.

(** ** Arrays, continued: what an assignment or a splice leaves alone *)

Section ArrayFrames.

Context {A B : Type}.

Lemma find_other_assignment (q : A -> bool) (l : list A) (i : nat) (x y : A) :
  l !! i = Some x -> q x = false -> q y = false ->
  List.find q (<[i := y]> l) = List.find q l.
Proof.
  revert i. induction l as [|z l IH]; intros i Hl Hx Hy; [discriminate|].
  destruct i as [|i]; simpl in *.
  - injection Hl as ->. now rewrite Hx, Hy.
  - destruct (q z); [reflexivity|]. now apply IH.
Qed.

Lemma find_other_splice (q : A -> bool) (l : list A) (i : nat) (x : A) :
  l !! i = Some x -> q x = false ->
  List.find q (delete i l) = List.find q l.
Proof.
  revert i. induction l as [|z l IH]; intros i Hl Hx; [discriminate|].
  destruct i as [|i]; simpl in *.
  - injection Hl as ->. now rewrite Hx.
  - destruct (q z); [reflexivity|]. now apply IH.
Qed.

Lemma map_assignment (f : A -> B) (l : list A) (i : nat) (x y : A) :
  l !! i = Some x -> f y = f x -> map f (<[i := y]> l) = map f l.
Proof.
  revert i. induction l as [|z l IH]; intros i Hl Hf; [discriminate|].
  destruct i as [|i]; simpl in *.
  - injection Hl as ->. now rewrite Hf.
  - f_equal. now apply IH.
Qed.

Lemma map_splice (f : A -> B) (l : list A) (i : nat) :
  map f (delete i l) = delete i (map f l).
Proof.
  revert i. induction l as [|z l IH]; intros i; [reflexivity|].
  destruct i as [|i]; simpl; [reflexivity|]. f_equal. apply IH.
Qed.

(** A [filter] and its complement split the array. *)
Lemma filter_split_length (q : A -> bool) (l : list A) :
  (length (List.filter q l) + length (List.filter (fun a => negb (q a)) l)
   = length l)%nat.
Proof.
  induction l as [|z l IH]; simpl; [reflexivity|].
  destruct (q z); simpl; lia.
Qed.

(** Filtering twice with tests that exclude each other's complement. *)
Lemma filter_filter_implied (q r : A -> bool) (l : list A) :
  (forall a, q a = true -> r a = true) ->
  List.filter q (List.filter r l) = List.filter q l.
Proof.
  intros Himp. induction l as [|z l IH]; simpl; [reflexivity|].
  destruct (r z) eqn:Hr; simpl.
  - destruct (q z); [f_equal|]; exact IH.
  - destruct (q z) eqn:Hq; [|exact IH].
    apply Himp in Hq. congruence.
Qed.

(** [push] after a search that found nothing puts the match at the end. *)
Lemma findIndex_push (q : A -> bool) (l : list A) (x : A) :
  List.find q l = None -> q x = true ->
  JS.findIndex q (l ++ [x])%list = Z.of_nat (length l).
Proof.
  intros Hnone Hx. induction l as [|z l IH]; simpl in *; [now rewrite Hx|].
  destruct (q z); [discriminate|].
  rewrite (IH Hnone).
  destruct (Z.eqb_spec (Z.of_nat (length l)) (-1)); lia.
Qed.

Lemma splice_last (l : list A) (x : A) : delete (length l) (l ++ [x])%list = l.
Proof. induction l as [|z l IH]; simpl; [reflexivity|]. now f_equal. Qed.

End ArrayFrames.

(** ** What every mutation keeps *)

(** X4. A mutation that throws has written nothing: after a thrown
    [createTask], [updateTask], [addTaskActivity] or [deleteTask] the server
    state is the state before the call. *)
Theorem X4_thrown_mutation_changes_nothing
    (uuidv4 now id : string) (title description : string)
    (otitle odescription : option string) (status : option TaskStatus)
    (assignee : option string) (message : string)
    (ctx : Context) (s s' : Server) (e : string) :
  (Mutation.createTask uuidv4 now title description assignee ctx s = (Throw e, s')
   -> s' = s)
  /\ (Mutation.updateTask now id otitle odescription status assignee ctx s
      = (Throw e, s') -> s' = s)
  /\ (Mutation.addTaskActivity uuidv4 now id message ctx s = (Throw e, s')
      -> s' = s)
  /\ (Mutation.deleteTask id ctx s = (Throw e, s') -> s' = s).
Proof.
  rewrite createTask_run, addTaskActivity_run.
  destruct (lookup_task id s) as [task|] eqn:Hl.
  - rewrite (updateTask_found _ _ _ _ _ _ _ _ task Hl).
    rewrite (deleteTask_found _ _ _ task Hl).
    destruct (JS.truthy (userId ctx)), (not_allowed ctx task);
      repeat split; intros [= ]; congruence.
  - rewrite (updateTask_missing _ _ _ _ _ _ _ _ Hl).
    rewrite (deleteTask_missing _ _ _ Hl).
    destruct (JS.truthy (userId ctx));
      repeat split; intros [= ]; congruence.
Qed.

Lemma X4_witness :
  snd (Mutation.updateTask Examples.noon "t1" (Some "x") None None None
                           Examples.bob Examples.s0)
  = Examples.s0
  /\ snd (Mutation.createTask "id-3" Examples.noon "A" "B" None
                              Examples.guest Examples.s0)
     = Examples.s0.
Proof.
  split.
  - destruct (X4_thrown_mutation_changes_nothing
                "id-3" Examples.noon "t1" "A" "B" (Some "x") None None None "note"
                Examples.bob Examples.s0
                (snd (Mutation.updateTask Examples.noon "t1" (Some "x") None None None
                                          Examples.bob Examples.s0))
                "You are not allowed to update this task.") as (_ & Hupdate & _).
    apply Hupdate. reflexivity.
  - destruct (X4_thrown_mutation_changes_nothing
                "id-3" Examples.noon "t1" "A" "B" (Some "x") None None None "note"
                Examples.guest Examples.s0
                (snd (Mutation.createTask "id-3" Examples.noon "A" "B" None
                                          Examples.guest Examples.s0))
                "Authentication required to create a task.") as (Hcreate & _).
    apply Hcreate. reflexivity.
Defined.

(** X5. Each mutation that succeeds publishes exactly one event, carrying
    what it returned (the id for a deletion), after the events already
    published; a mutation that throws, and a [deleteTask] that returns
    [false], publish nothing. *)
Theorem X5_one_event_per_successful_mutation
    (uuidv4 now id : string) (title description : string)
    (otitle odescription : option string) (status : option TaskStatus)
    (assignee : option string) (message : string)
    (ctx : Context) (s s' : Server) :
  (forall r, Mutation.createTask uuidv4 now title description assignee ctx s = (r, s')
             -> published s'
                = match r with
                  | Return task => (published s ++ [TASK_CREATED task])%list
                  | Throw _ => published s
                  end)
  /\ (forall r, Mutation.updateTask now id otitle odescription status assignee ctx s
                = (r, s')
                -> published s'
                   = match r with
                     | Return updated => (published s ++ [TASK_UPDATED updated])%list
                     | Throw _ => published s
                     end)
  /\ (forall r, Mutation.addTaskActivity uuidv4 now id message ctx s = (r, s')
                -> published s'
                   = match r with
                     | Return activity =>
                         (published s ++ [TASK_ACTIVITY_ADDED activity])%list
                     | Throw _ => published s
                     end)
  /\ (forall r, Mutation.deleteTask id ctx s = (r, s')
                -> published s'
                   = match r with
                     | Return true => (published s ++ [TASK_DELETED id])%list
                     | Return false | Throw _ => published s
                     end).
Proof.
  rewrite createTask_run, addTaskActivity_run.
  destruct (lookup_task id s) as [task|] eqn:Hl.
  - rewrite (updateTask_found _ _ _ _ _ _ _ _ task Hl).
    rewrite (deleteTask_found _ _ _ task Hl).
    destruct (JS.truthy (userId ctx)), (not_allowed ctx task);
      repeat split; intros r [= <- <-]; reflexivity.
  - rewrite (updateTask_missing _ _ _ _ _ _ _ _ Hl).
    rewrite (deleteTask_missing _ _ _ Hl).
    destruct (JS.truthy (userId ctx));
      repeat split; intros r [= <- <-]; reflexivity.
Qed.

Lemma X5_witness :
  published (snd (Mutation.deleteTask "t2" Examples.root Examples.s0))
  = [TASK_DELETED "t2"]
  /\ published (snd (Mutation.deleteTask "t9" Examples.root Examples.s0)) = [].
Proof.
  split.
  - destruct (X5_one_event_per_successful_mutation
                "id-3" Examples.noon "t2" "A" "B" None None None None "note"
                Examples.root Examples.s0
                (snd (Mutation.deleteTask "t2" Examples.root Examples.s0)))
      as (_ & _ & _ & Hdelete).
    apply (Hdelete (Return true)). reflexivity.
  - destruct (X5_one_event_per_successful_mutation
                "id-3" Examples.noon "t9" "A" "B" None None None None "note"
                Examples.root Examples.s0
                (snd (Mutation.deleteTask "t9" Examples.root Examples.s0)))
      as (_ & _ & _ & Hdelete).
    apply (Hdelete (Return false)). reflexivity.
Defined.

Lemma find_push_other {A} (q : A -> bool) (l : list A) (x : A) :
  q x = false -> List.find q (l ++ [x]) = List.find q l.
Proof.
  intros Hx. induction l as [|z l IH]; simpl; [now rewrite Hx|].
  now destruct (q z).
Qed.

Lemma filter_keeps_all {A} (q : A -> bool) (l : list A) :
  (forall a, In a l -> q a = true) -> List.filter q l = l.
Proof.
  induction l as [|z l IH]; intros Hall; simpl; [reflexivity|].
  rewrite (Hall z (or_introl eq_refl)). f_equal. apply IH.
  intros a Ha. apply Hall. now right.
Qed.

Lemma updateTask_keeps_identity
    (now id : string) (title description : option string)
    (status : option TaskStatus) (assignee : option string)
    (ctx : Context) (s : Server) (r : completion Task.t) (s' : Server) :
  Mutation.updateTask now id title description status assignee ctx s = (r, s') ->
  map Task.id (tasks s') = map Task.id (tasks s)
  /\ map Task.createdAt (tasks s') = map Task.createdAt (tasks s)
  /\ taskActivities s' = taskActivities s.
Proof.
  destruct (lookup_task id s) as [task|] eqn:Hl.
  - rewrite (updateTask_found _ _ _ _ _ _ _ _ task Hl).
    destruct (not_allowed ctx task); intros [= _ <-]; [now repeat split|].
    apply findIndex_found in Hl as [_ Hidx]. simpl. unfold task_index.
    repeat split; now apply (map_assignment _ _ _ task).
  - rewrite (updateTask_missing _ _ _ _ _ _ _ _ Hl). intros [= _ <-].
    now repeat split.
Qed.

Lemma addTaskActivity_keeps_tasks
    (uuidv4 now taskId message : string) (ctx : Context) (s : Server)
    (r : completion TaskActivity.t) (s' : Server) :
  Mutation.addTaskActivity uuidv4 now taskId message ctx s = (r, s') ->
  tasks s' = tasks s.
Proof.
  rewrite addTaskActivity_run.
  destruct (JS.truthy (userId ctx)); [|now intros [= _ <-]].
  destruct (lookup_task taskId s); now intros [= _ <-].
Qed.

(** X6. A mutation aimed at one id leaves every other id alone: after
    [createTask] generating [id], and after [updateTask] or [deleteTask] on
    [id], whatever the outcome, [task(other)] finds what it found before and
    the activities listed for [other] are the same, for every [other]
    different from [id]. *)
Theorem X6_other_tasks_untouched
    (now id other : string) (title description : string)
    (otitle odescription : option string) (status : option TaskStatus)
    (assignee : option string) (ctx : Context) (s : Server) :
  other <> id ->
  (forall r s',
      Mutation.createTask id now title description assignee ctx s = (r, s') ->
      lookup_task other s' = lookup_task other s
      /\ listActivities other s' = listActivities other s)
  /\ (forall r s',
         Mutation.updateTask now id otitle odescription status assignee ctx s
         = (r, s') ->
         lookup_task other s' = lookup_task other s
         /\ listActivities other s' = listActivities other s)
  /\ (forall r s',
         Mutation.deleteTask id ctx s = (r, s') ->
         lookup_task other s' = lookup_task other s
         /\ listActivities other s' = listActivities other s).
Proof.
  intros Hne.
  assert (Hoff : forall t : Task.t, Task.id t = id -> JS.seq (Task.id t) other = false).
  { intros t Ht. apply seq_false. congruence. }
  split; [|split].
  - intros r s'. rewrite createTask_run.
    destruct (JS.truthy (userId ctx)); intros [= _ <-]; [|now split].
    split; [|reflexivity]. unfold lookup_task. simpl.
    apply find_push_other. now apply Hoff.
  - intros r s'. destruct (lookup_task id s) as [task|] eqn:Hl.
    + rewrite (updateTask_found _ _ _ _ _ _ _ _ task Hl).
      destruct (not_allowed ctx task); intros [= _ <-]; [now split|].
      split; [|reflexivity]. unfold lookup_task, task_index. simpl.
      destruct (lookup_task_id _ _ _ Hl) as [Hid _].
      apply findIndex_found in Hl as [_ Hidx].
      apply (find_other_assignment _ _ _ task); [exact Hidx| |]; now apply Hoff.
    + rewrite (updateTask_missing _ _ _ _ _ _ _ _ Hl). intros [= _ <-]. now split.
  - intros r s'. destruct (lookup_task id s) as [task|] eqn:Hl.
    + rewrite (deleteTask_found _ _ _ task Hl).
      destruct (not_allowed ctx task); intros [= _ <-]; [now split|].
      split.
      * unfold lookup_task, task_index. simpl.
        destruct (lookup_task_id _ _ _ Hl) as [Hid _].
        apply findIndex_found in Hl as [_ Hidx].
        apply (find_other_splice _ _ _ task); [exact Hidx|]. now apply Hoff.
      * unfold listActivities. simpl. apply filter_filter_implied.
        intros a Ha. apply seq_true in Ha. apply negb_true_iff, seq_false.
        congruence.
    + rewrite (deleteTask_missing _ _ _ Hl). intros [= _ <-]. now split.
Qed.

Lemma X6_witness :
  lookup_task "t1" (snd (Mutation.deleteTask "t2" Examples.root Examples.s0))
  = lookup_task "t1" Examples.s0
  /\ listActivities "t2"
       (snd (Mutation.updateTask Examples.noon "t1" None None (Some DONE) None
                                 Examples.john Examples.s0))
     = listActivities "t2" Examples.s0.
Proof.
  split.
  - destruct (X6_other_tasks_untouched
                Examples.noon "t2" "t1" "A" "B" None None None None
                Examples.root Examples.s0 ltac:(discriminate)) as (_ & _ & Hdelete).
    apply (Hdelete (fst (Mutation.deleteTask "t2" Examples.root Examples.s0))).
    reflexivity.
  - destruct (X6_other_tasks_untouched
                Examples.noon "t1" "t2" "A" "B" None None (Some DONE) None
                Examples.john Examples.s0 ltac:(discriminate)) as (_ & Hupdate & _).
    apply (Hupdate
             (fst (Mutation.updateTask Examples.noon "t1" None None (Some DONE) None
                                       Examples.john Examples.s0))).
    reflexivity.
Defined.

(** X7. [updateTask] never changes the identity of a task: whatever the
    arguments and the outcome, the ids of the stored tasks, in order, and
    their creation times are the same after the call as before it, and so
    are the activities. *)
Theorem X7_updateTask_keeps_ids_and_creation_times
    (now id : string) (title description : option string)
    (status : option TaskStatus) (assignee : option string)
    (ctx : Context) (s : Server) (r : completion Task.t) (s' : Server) :
  Mutation.updateTask now id title description status assignee ctx s = (r, s') ->
  task_ids s' = task_ids s
  /\ map Task.createdAt (tasks s') = map Task.createdAt (tasks s)
  /\ taskActivities s' = taskActivities s.
Proof.
  unfold task_ids. apply updateTask_keeps_identity.
Qed.

Lemma X7_witness :
  task_ids (snd (Mutation.updateTask Examples.noon "t2" (Some "New title") None
                                     (Some DONE) (Some "Bob")
                                     Examples.root Examples.s0))
  = ["t1"; "t2"].
Proof.
  apply (X7_updateTask_keeps_ids_and_creation_times
           Examples.noon "t2" (Some "New title") None (Some DONE) (Some "Bob")
           Examples.root Examples.s0
           (fst (Mutation.updateTask Examples.noon "t2" (Some "New title") None
                                     (Some DONE) (Some "Bob")
                                     Examples.root Examples.s0))
           (snd (Mutation.updateTask Examples.noon "t2" (Some "New title") None
                                     (Some DONE) (Some "Bob")
                                     Examples.root Examples.s0))
           eq_refl).
Defined.

(** X8. Task ids stay pairwise distinct: if they are distinct before a
    mutation they are distinct after it, for [updateTask], [addTaskActivity]
    and [deleteTask] always, and for [createTask] whenever the id generated
    in the call is not the id of a stored task. *)
Theorem X8_task_ids_stay_distinct
    (uuidv4 now id : string) (title description : string)
    (otitle odescription : option string) (status : option TaskStatus)
    (assignee : option string) (message : string)
    (ctx : Context) (s : Server) :
  NoDup (task_ids s) ->
  (forall r s',
      ~ In uuidv4 (task_ids s) ->
      Mutation.createTask uuidv4 now title description assignee ctx s = (r, s') ->
      NoDup (task_ids s'))
  /\ (forall r s',
         Mutation.updateTask now id otitle odescription status assignee ctx s
         = (r, s') ->
         NoDup (task_ids s'))
  /\ (forall r s',
         Mutation.addTaskActivity uuidv4 now id message ctx s = (r, s') ->
         NoDup (task_ids s'))
  /\ (forall r s',
         Mutation.deleteTask id ctx s = (r, s') ->
         NoDup (task_ids s')).
Proof.
  intros Hnd. split; [|split; [|split]].
  - intros r s' Hfresh. rewrite createTask_run.
    destruct (JS.truthy (userId ctx)); intros [= _ <-]; [|exact Hnd].
    unfold task_ids in *. simpl. rewrite map_app. simpl.
    apply NoDup_app. split; [exact Hnd|]. split.
    + intros x Hx [->|[]]%list_elem_of_In. apply Hfresh. now apply list_elem_of_In.
    + apply NoDup_singleton.
  - intros r s' Hrun. apply updateTask_keeps_identity in Hrun as [Hids _].
    unfold task_ids in *. now rewrite Hids.
  - intros r s' Hrun. apply addTaskActivity_keeps_tasks in Hrun.
    unfold task_ids. now rewrite Hrun.
  - intros r s'. destruct (lookup_task id s) as [task|] eqn:Hl.
    + rewrite (deleteTask_found _ _ _ task Hl).
      destruct (not_allowed ctx task); intros [= _ <-]; [exact Hnd|].
      unfold task_ids in *. simpl. rewrite map_splice.
      exact (sublist_NoDup _ _ Hnd (sublist_delete _ _)).
    + rewrite (deleteTask_missing _ _ _ Hl). now intros [= _ <-].
Qed.

Lemma X8_witness :
  NoDup (task_ids (snd (Mutation.createTask "id-3" Examples.noon "A" "B" None
                                            Examples.alice Examples.s0)))
  /\ NoDup (task_ids (snd (Mutation.deleteTask "t1" Examples.root Examples.s0))).
Proof.
  assert (Hnd : NoDup (task_ids Examples.s0))
    by (apply (bool_decide_unpack _); reflexivity).
  destruct (X8_task_ids_stay_distinct
              "id-3" Examples.noon "t1" "A" "B" None None None None "note"
              Examples.alice Examples.s0 Hnd) as (Hcreate & _).
  destruct (X8_task_ids_stay_distinct
              "id-3" Examples.noon "t1" "A" "B" None None None None "note"
              Examples.root Examples.s0 Hnd) as (_ & _ & _ & Hdelete).
  split.
  - apply (Hcreate (fst (Mutation.createTask "id-3" Examples.noon "A" "B" None
                                             Examples.alice Examples.s0))).
    + intros [H|[H|[]]]; discriminate.
    + reflexivity.
  - apply (Hdelete (fst (Mutation.deleteTask "t1" Examples.root Examples.s0))).
    reflexivity.
Defined.

(** ** The counts the health endpoint reports *)

(** X9. The task and activity counts of [/health] follow the mutations: a
    successful [createTask] raises the task count by one, a successful
    [addTaskActivity] raises the activity count by one, [updateTask]
    changes neither, and a [deleteTask] that returns [true] lowers the task
    count by one and the activity count by the number of activities the
    task had. *)
Theorem X9_health_counts_follow_mutations
    (t uuidv4 now id : string) (title description : string)
    (otitle odescription : option string) (status : option TaskStatus)
    (assignee : option string) (message : string)
    (ctx : Context) (s s' : Server) :
  (forall task,
      Mutation.createTask uuidv4 now title description assignee ctx s
      = (Return task, s') ->
      Health.tasks (health t s') = S (Health.tasks (health t s))
      /\ Health.activities (health t s') = Health.activities (health t s))
  /\ (forall activity,
         Mutation.addTaskActivity uuidv4 now id message ctx s
         = (Return activity, s') ->
         Health.tasks (health t s') = Health.tasks (health t s)
         /\ Health.activities (health t s') = S (Health.activities (health t s)))
  /\ (forall r,
         Mutation.updateTask now id otitle odescription status assignee ctx s
         = (r, s') ->
         Health.tasks (health t s') = Health.tasks (health t s)
         /\ Health.activities (health t s') = Health.activities (health t s))
  /\ (Mutation.deleteTask id ctx s = (Return true, s') ->
      S (Health.tasks (health t s')) = Health.tasks (health t s)
      /\ (Health.activities (health t s') + length (listActivities id s))%nat
         = Health.activities (health t s)).
Proof.
  unfold health. simpl. split; [|split; [|split]].
  - intros task. rewrite createTask_run.
    destruct (JS.truthy (userId ctx)); intros [= _ <-]. simpl.
    rewrite length_app. simpl. split; [lia | reflexivity].
  - intros activity. rewrite addTaskActivity_run.
    destruct (JS.truthy (userId ctx)); [|discriminate].
    destruct (lookup_task id s); intros [= _ <-]. simpl.
    rewrite length_app. simpl. split; [reflexivity | lia].
  - intros r Hrun. apply updateTask_keeps_identity in Hrun as (Hids & _ & Hacts).
    rewrite Hacts. split; [|reflexivity].
    apply (f_equal (@length string)) in Hids. now rewrite !length_map in Hids.
  - destruct (lookup_task id s) as [task|] eqn:Hl.
    + rewrite (deleteTask_found _ _ _ task Hl).
      destruct (not_allowed ctx task); intros [= <-]. simpl.
      apply findIndex_found in Hl as [_ Hidx].
      split.
      * rewrite length_delete by (unfold task_index; eauto).
        apply lookup_lt_Some in Hidx. lia.
      * unfold listActivities.
        pose proof (filter_split_length
                      (fun a => JS.seq (TaskActivity.taskId a) id)
                      (taskActivities s)).
        lia.
    + rewrite (deleteTask_missing _ _ _ Hl). discriminate.
Qed.

Lemma X9_witness :
  S (Health.tasks (health Examples.noon
                          (snd (Mutation.deleteTask "t2" Examples.root Examples.s0))))
  = Health.tasks (health Examples.noon Examples.s0)
  /\ (Health.activities
        (health Examples.noon
                (snd (Mutation.deleteTask "t2" Examples.root Examples.s0)))
      + length (listActivities "t2" Examples.s0))%nat
     = Health.activities (health Examples.noon Examples.s0).
Proof.
  destruct (X9_health_counts_follow_mutations
              Examples.noon "id-3" Examples.noon "t2" "A" "B" None None None None
              "note" Examples.root Examples.s0
              (snd (Mutation.deleteTask "t2" Examples.root Examples.s0)))
    as (_ & _ & _ & Hdelete).
  apply Hdelete. reflexivity.
Defined.

(** ** [updateTask], continued *)

(** X10. For a caller the guard admits, [updateTask] on an existing task
    stores every supplied non-empty title, description and assignee and
    every supplied status, from whatever status the task had: no order of
    statuses is enforced. *)
Theorem X10_updateTask_takes_supplied_fields
    (now id : string) (title description : option string)
    (status : option TaskStatus) (assignee : option string)
    (ctx : Context) (s : Server) (task : Task.t) :
  lookup_task id s = Some task ->
  userRole ctx = "admin" \/ userName ctx = Task.assignee task ->
  exists updated s',
    Mutation.updateTask now id title description status assignee ctx s
    = (Return updated, s')
    /\ (forall v, title = Some v -> v <> "" -> Task.title updated = v)
    /\ (forall v, description = Some v -> v <> "" -> Task.description updated = v)
    /\ (forall v, assignee = Some v -> v <> "" -> Task.assignee updated = v)
    /\ (forall st, status = Some st -> Task.status updated = st)
    /\ lookup_task id s' = Some updated.
Proof.
  intros Hl Hok.
  rewrite (updateTask_found now id title description status assignee ctx s task Hl).
  apply not_allowed_false in Hok. rewrite Hok.
  eexists _, _. split; [reflexivity|]. simpl.
  assert (Hset : forall o old v, o = Some v -> v <> "" -> spread_string o old = v).
  { intros o old v -> Hv. simpl. apply truthy_true in Hv. now rewrite Hv. }
  repeat split; auto.
  - now intros st ->.
  - unfold lookup_task, task_index. simpl.
    apply (find_after_assignment id (tasks s) task); [exact Hl|].
    simpl. now destruct (lookup_task_id id s task Hl).
Qed.

Lemma X10_witness :
  exists updated s',
    Mutation.updateTask Examples.noon "t2" (Some "Ship it") None (Some TODO)
                        (Some "Bob") Examples.root Examples.s0
    = (Return updated, s')
    /\ Task.title updated = "Ship it"
    /\ Task.assignee updated = "Bob"
    /\ Task.status updated = TODO.
Proof.
  destruct (X10_updateTask_takes_supplied_fields
              Examples.noon "t2" (Some "Ship it") None (Some TODO) (Some "Bob")
              Examples.root Examples.s0
              (Task.mk "t2" "Implement JWT authentication"
                 "Integrasi JWT RS256 antara User Service dan API Gateway."
                 IN_PROGRESS "Jane Smith" "2024-01-01T00:00:00.000Z"
                 "2024-01-01T00:00:00.000Z")
              eq_refl (or_introl eq_refl))
    as (updated & s' & Hrun & Ht & _ & Ha & Hs & _).
  exists updated, s'. split; [exact Hrun|].
  split; [apply (Ht "Ship it" eq_refl); discriminate|].
  split; [apply (Ha "Bob" eq_refl); discriminate|].
  exact (Hs TODO eq_refl).
Defined.

(** X11. A caller who is not admin and hands a task over to someone else
    loses the task: after an [updateTask] that sets the assignee to another
    non-empty name, the same caller's next [updateTask] and [deleteTask] on
    that task throw the "not allowed" error. *)
Theorem X11_reassigning_gives_the_task_away
    (now now' id newAssignee : string) (title description : option string)
    (status : option TaskStatus)
    (title' description' : option string) (status' : option TaskStatus)
    (assignee' : option string)
    (ctx : Context) (s : Server) (task : Task.t) :
  lookup_task id s = Some task ->
  userRole ctx <> "admin" ->
  userName ctx = Task.assignee task ->
  newAssignee <> "" ->
  newAssignee <> userName ctx ->
  exists updated s1,
    Mutation.updateTask now id title description status (Some newAssignee) ctx s
    = (Return updated, s1)
    /\ Mutation.updateTask now' id title' description' status' assignee' ctx s1
       = (Throw "You are not allowed to update this task.", s1)
    /\ Mutation.deleteTask id ctx s1
       = (Throw "You are not allowed to delete this task.", s1).
Proof.
  intros Hl Hrole Hname Hnew Hother.
  rewrite (updateTask_found now id title description status (Some newAssignee)
                            ctx s task Hl).
  assert (Hok : not_allowed ctx task = false) by (apply not_allowed_false; auto).
  rewrite Hok.
  eexists _, _. split; [reflexivity|].
  match goal with |- context [Mutation.deleteTask id ctx ?s1] =>
    assert (Hl1 : lookup_task id s1
                  = Some (Task.mk (Task.id task)
                            (spread_string title (Task.title task))
                            (spread_string description (Task.description task))
                            (spread_status status (Task.status task))
                            (spread_string (Some newAssignee) (Task.assignee task))
                            (Task.createdAt task) now))
  end.
  { unfold lookup_task, task_index. simpl.
    apply (find_after_assignment id (tasks s) task); [exact Hl|].
    simpl. now destruct (lookup_task_id id s task Hl). }
  rewrite (updateTask_found now' id title' description' status' assignee' ctx _ _ Hl1).
  rewrite (deleteTask_found id ctx _ _ Hl1).
  match goal with |- context [not_allowed ctx ?u] =>
    assert (Hno : not_allowed ctx u = true)
  end.
  { apply not_allowed_true. split; [exact Hrole|]. simpl.
    apply truthy_true in Hnew. rewrite Hnew. congruence. }
  rewrite Hno. now split.
Qed.

Lemma X11_witness :
  exists updated s1,
    Mutation.updateTask Examples.noon "t1" None None None (Some "Bob")
                        Examples.john Examples.s0
    = (Return updated, s1)
    /\ Mutation.updateTask Examples.noon "t1" None None (Some DONE) None
                           Examples.john s1
       = (Throw "You are not allowed to update this task.", s1)
    /\ Mutation.deleteTask "t1" Examples.john s1
       = (Throw "You are not allowed to delete this task.", s1).
Proof.
  apply (X11_reassigning_gives_the_task_away
           Examples.noon Examples.noon "t1" "Bob" None None None
           None None (Some DONE) None Examples.john Examples.s0
           (Task.mk "t1" "Setup project structure"
              "Inisialisasi repository, konfigurasi Docker, dan API Gateway."
              TODO "John Doe" "2024-01-01T00:00:00.000Z"
              "2024-01-01T00:00:00.000Z")
           eq_refl); try discriminate; reflexivity.
Defined.

(** ** Creating and deleting *)

(** X12. Creating a task and deleting it again is a round trip on the
    store.  In a reachable state, a caller with non-empty userId and
    userName who creates a task without naming an assignee, under an id no
    stored task has, may delete it at once; tasks and activities are then
    exactly what they were, and the event log has grown by the task-created
    and the task-deleted event. *)
Theorem X12_create_then_delete_restores_the_store
    (uuidv4 now title description : string) (assignee : option string)
    (ctx : Context) (s : Server) :
  reachable s ->
  userId ctx <> "" ->
  userName ctx <> "" ->
  absent_if_empty assignee = None ->
  ~ In uuidv4 (task_ids s) ->
  exists task s1 s2,
    Mutation.createTask uuidv4 now title description assignee ctx s
    = (Return task, s1)
    /\ Mutation.deleteTask uuidv4 ctx s1 = (Return true, s2)
    /\ tasks s2 = tasks s
    /\ taskActivities s2 = taskActivities s
    /\ published s2
       = (published s ++ [TASK_CREATED task; TASK_DELETED uuidv4])%list.
Proof.
  intros Hreach Hid Hname Habsent Hfresh.
  rewrite createTask_run. apply truthy_true in Hid. rewrite Hid.
  eexists _, _, _. split; [reflexivity|].
  assert (Hnone : lookup_task uuidv4 s = None).
  { apply lookup_task_none. intros t Ht Heq. apply Hfresh.
    unfold task_ids. apply in_map_iff. eauto. }
  match goal with |- context [Mutation.deleteTask uuidv4 ctx ?st] =>
    set (s1 := st) end.
  set (task := Task.mk uuidv4 title description TODO
                       (JS.or_undef assignee (JS.or (userName ctx) "Unassigned"))
                       now now) in *.
  assert (Hl1 : lookup_task uuidv4 s1 = Some task).
  { unfold lookup_task, s1. simpl. rewrite (find_push _ _ _ Hnone). simpl.
    unfold JS.seq. now rewrite String.eqb_refl. }
  assert (Hassignee : Task.assignee task = userName ctx).
  { simpl. apply truthy_true in Hname.
    destruct assignee as [a|]; simpl in *; unfold JS.or.
    - destruct (JS.truthy a); [discriminate|]. now rewrite Hname.
    - now rewrite Hname. }
  assert (Hok : not_allowed ctx task = false)
    by (apply not_allowed_false; right; now rewrite Hassignee).
  rewrite (deleteTask_found uuidv4 ctx s1 task Hl1), Hok.
  split; [reflexivity|]. simpl.
  split; [|split].
  - unfold task_index, s1. simpl. fold task.
    rewrite (findIndex_push _ (tasks s) task Hnone)
      by (unfold JS.seq; apply String.eqb_refl).
    rewrite Nat2Z.id. apply splice_last.
  - apply filter_keeps_all. intros a Ha.
    apply negb_true_iff, seq_false. intros Heq.
    destruct (integrity_reachable s Hreach a Ha) as (t & Ht & Hta).
    apply Hfresh. unfold task_ids. apply in_map_iff. exists t.
    split; [congruence | exact Ht].
  - now rewrite <- app_assoc.
Qed.

Lemma X12_witness :
  exists task s1 s2,
    Mutation.createTask "id-3" Examples.noon "A" "B" None Examples.alice Examples.s0
    = (Return task, s1)
    /\ Mutation.deleteTask "id-3" Examples.alice s1 = (Return true, s2)
    /\ tasks s2 = tasks Examples.s0
    /\ taskActivities s2 = taskActivities Examples.s0
    /\ published s2
       = (published Examples.s0 ++ [TASK_CREATED task; TASK_DELETED "id-3"])%list.
Proof.
  apply (X12_create_then_delete_restores_the_store
           "id-3" Examples.noon "A" "B" None Examples.alice Examples.s0
           (reachable_boot _ _ _ _ _)); try discriminate.
  - reflexivity.
  - intros [H|[H|[]]]; discriminate.
Defined.

(** X13. In every state the server can reach, the task of each stored
    activity can be fetched: [task(activity.taskId)] returns a task with
    that id, and the activity is among those listed for it. *)
Theorem X13_every_activity_has_a_fetchable_task
    (s : Server) (a : TaskActivity.t) :
  reachable s ->
  In a (taskActivities s) ->
  exists task,
    Query.task (TaskActivity.taskId a) s = (Return (Some task), s)
    /\ Task.id task = TaskActivity.taskId a
    /\ In a (listActivities (Task.id task) s).
Proof.
  intros Hreach Ha.
  destruct (integrity_reachable s Hreach a Ha) as (t & Ht & Hta).
  rewrite Query_task_run.
  destruct (lookup_task (TaskActivity.taskId a) s) as [task|] eqn:Hl.
  - exists task. split; [reflexivity|].
    destruct (lookup_task_id _ _ _ Hl) as [Hid _]. split; [exact Hid|].
    unfold listActivities. apply filter_In. split; [exact Ha|].
    apply seq_true. congruence.
  - exfalso. exact (proj1 (lookup_task_none _ _) Hl t Ht Hta).
Qed.

Lemma X13_witness :
  exists task,
    Query.task "t2" Examples.s0 = (Return (Some task), Examples.s0)
    /\ Task.id task = "t2"
    /\ In (TaskActivity.mk "a1" "t2" "Task created" "Jane Smith"
                           "2024-01-01T00:00:00.000Z")
          (listActivities (Task.id task) Examples.s0).
Proof.
  apply (X13_every_activity_has_a_fetchable_task
           Examples.s0
           (TaskActivity.mk "a1" "t2" "Task created" "Jane Smith"
                            "2024-01-01T00:00:00.000Z")
           (reachable_boot _ _ _ _ _)).
  left. reflexivity.
Defined.

(** ** The public-key cache *)

Section KeyCache.

Variable w : World.

Lemma getAuthPublicKey_cached (s : Server) :
  cachedAuthPublicKey s <> "" ->
  getAuthPublicKey w s = (Return (cachedAuthPublicKey s), s).
Proof.
  intros Hc. apply truthy_true in Hc.
  unfold getAuthPublicKey, bind, get. now rewrite Hc.
Qed.

Lemma decodeToken_keeps_cache (token : string) (s : Server) r s' :
  cachedAuthPublicKey s <> "" ->
  decodeToken w token s = (r, s') ->
  cachedAuthPublicKey s' = cachedAuthPublicKey s.
Proof.
  intros Hc. unfold decodeToken, bind. rewrite (getAuthPublicKey_cached s Hc).
  apply truthy_true in Hc. rewrite Hc. simpl.
  intros Hv. apply (f_equal snd) in Hv. rewrite jwt_verify_state in Hv.
  simpl in Hv. now subst s'.
Qed.



End KeyCache.

(** X14. A populated key cache is never emptied.  Every step, the turn of
    an overlapping fetch included, leaves a non-empty [cachedAuthPublicKey]
    non-empty.  Resolver calls, and runs of [context] and [getAuthPublicKey]
    that start with the cache populated, leave it as it is; the one step
    that changes it is the turn of a fetch begun earlier, which does not
    test the cache again and overwrites it with the non-empty body its
    endpoint answered with: the last fetch to settle wins. *)
Theorem X14_populated_key_cache_is_never_emptied (s s' : Server) :
  step s s' ->
  cachedAuthPublicKey s <> "" ->
  cachedAuthPublicKey s' <> ""
  /\ (cachedAuthPublicKey s' = cachedAuthPublicKey s
      \/ exists w endpoint r,
           In endpoint (PUBLIC_KEY_ENDPOINTS w)
           /\ settle_public_key w endpoint s = (r, s')
           /\ axios_get w endpoint = inl (cachedAuthPublicKey s')).
Proof.
  intros Hstep Hc.
  assert (Hkeep : cachedAuthPublicKey s' = cachedAuthPublicKey s ->
                  cachedAuthPublicKey s' <> ""
                  /\ (cachedAuthPublicKey s' = cachedAuthPublicKey s
                      \/ exists w endpoint r,
                           In endpoint (PUBLIC_KEY_ENDPOINTS w)
                           /\ settle_public_key w endpoint s = (r, s')
                           /\ axios_get w endpoint = inl (cachedAuthPublicKey s')))
    by (intros Heq; split; [congruence | now left]).
  destruct Hstep as
    [ uuidv4 now title description assignee ctx s r s' H
    | now id title description status assignee ctx s r s' H
    | uuidv4 now taskId message ctx s r s' H
    | id ctx s r s' H | w req s r s' H | w s r s' H
    | w endpoint s r s' Hin H | message s r s' H ].
  - apply Hkeep. rewrite createTask_run in H.
    destruct (JS.truthy (userId ctx)); now injection H as _ <-.
  - apply Hkeep. destruct (lookup_task id s) as [task|] eqn:Hl.
    + rewrite (updateTask_found _ _ _ _ _ _ _ _ task Hl) in H.
      destruct (not_allowed ctx task); now injection H as _ <-.
    + rewrite (updateTask_missing _ _ _ _ _ _ _ _ Hl) in H. now injection H as _ <-.
  - apply Hkeep. rewrite addTaskActivity_run in H.
    destruct (JS.truthy (userId ctx)); [|now injection H as _ <-].
    destruct (lookup_task taskId s); now injection H as _ <-.
  - apply Hkeep. destruct (lookup_task id s) as [task|] eqn:Hl.
    + rewrite (deleteTask_found _ _ _ task Hl) in H.
      destruct (not_allowed ctx task); now injection H as _ <-.
    + rewrite (deleteTask_missing _ _ _ Hl) in H. now injection H as _ <-.
  - apply Hkeep. rewrite context_run in H.
    destruct (negb (JS.truthy (userId (header_identity req)))
              && JS.truthy (bearer_token req)); [|now injection H as _ <-].
    destruct (decodeToken w (bearer_token req) s) as [[decoded|message] s1] eqn:Hd;
      apply (decodeToken_keeps_cache w _ _ _ _ Hc) in Hd;
      injection H as _ <-; exact Hd.
  - apply Hkeep. rewrite (getAuthPublicKey_cached w s Hc) in H.
    now injection H as _ <-.
  - destruct (settle_public_key_writes w endpoint s r s' H) as [_ [Heq|[Hget Hne]]].
    + now apply Hkeep.
    + split; [exact Hne|]. right. exists w, endpoint, r. auto.
  - apply Hkeep. now injection H as _ <-.
Qed.

Lemma X14_witness :
  let s1 := snd (getAuthPublicKey Examples.online Examples.s0) in
  let s2 := snd (settle_public_key Examples.rotated
                                   "http://rest-api:3001/api/auth/public-key" s1) in
  (cachedAuthPublicKey
     (snd (context Examples.offline (Examples.bearer "garbage") s1)) <> ""
   /\ cachedAuthPublicKey
        (snd (context Examples.offline (Examples.bearer "garbage") s1))
      = "-----BEGIN PUBLIC KEY-----")
  /\ (cachedAuthPublicKey s2 <> ""
      /\ cachedAuthPublicKey s1 = "-----BEGIN PUBLIC KEY-----"
      /\ cachedAuthPublicKey s2 = "-----BEGIN PUBLIC KEY 2-----").
Proof.
  intros s1 s2. split.
  - destruct (X14_populated_key_cache_is_never_emptied
                s1 (snd (context Examples.offline (Examples.bearer "garbage") s1)))
      as [Hne _].
    + apply (step_context Examples.offline (Examples.bearer "garbage") s1
                          (fst (context Examples.offline
                                        (Examples.bearer "garbage") s1))).
      reflexivity.
    + discriminate.
    + split; [exact Hne | reflexivity].
  - destruct (X14_populated_key_cache_is_never_emptied s1 s2) as [Hne _].
    + apply (step_settle_public_key
               Examples.rotated "http://rest-api:3001/api/auth/public-key" s1
               (fst (settle_public_key Examples.rotated
                                       "http://rest-api:3001/api/auth/public-key" s1))).
      * left. reflexivity.
      * reflexivity.
    + discriminate.
    + split; [exact Hne|]. split; reflexivity.
Defined.




(** ** Facts about strings *)

Section StringFacts.

Lemma replace_trailing_slash_app (u : string) :
  JS.replace_trailing_slash (u ++ "/") = u.
Proof.
  induction u as [|c r IH]; [reflexivity|].
  destruct r as [|d r']; [reflexivity|].
  change (String c (JS.replace_trailing_slash (String d r' ++ "/")) = String c (String d r')).
  now rewrite IH.
Qed.

Lemma replace_trailing_slash_none (s : string) :
  (forall u, s <> u ++ "/") -> JS.replace_trailing_slash s = s.
Proof.
  induction s as [|c r IH]; intros Hno; [reflexivity|].
  destruct r as [|d r'].
  - simpl. destruct (Ascii.eqb_spec c "/"); [|reflexivity].
    subst c. now destruct (Hno "").
  - change (String c (JS.replace_trailing_slash (String d r')) = String c (String d r')).
    rewrite IH; [reflexivity|].
    intros u Hu. apply (Hno (String c u)). simpl. now rewrite Hu.
Qed.

Variable sep : ascii.

Lemma split_nonempty (s : string) : JS.split sep s <> [].
Proof.
  destruct s as [|c r]; simpl; [discriminate|].
  destruct (Ascii.eqb c sep); [discriminate|].
  destruct (JS.split sep r); discriminate.
Qed.

(** A string without the separator is its own single field. *)
Lemma split_free (s : string) : free_of sep s -> JS.split sep s = [s].
Proof.
  unfold free_of. induction s as [|c r IH]; intros Hfree; simpl; [reflexivity|].
  simpl in Hfree.
  destruct (Ascii.eqb_spec c sep) as [->|Hne]; [exfalso; apply Hfree; now left|].
  rewrite IH; [reflexivity|]. intros Hin. apply Hfree. now right.
Qed.

(** Splitting peels off a first field that is free of the separator. *)
Lemma split_field (a b : string) :
  free_of sep a -> JS.split sep (a ++ String sep b) = a :: JS.split sep b.
Proof.
  unfold free_of. induction a as [|c r IH]; intros Hfree; simpl.
  - now rewrite Ascii.eqb_refl.
  - simpl in Hfree.
    destruct (Ascii.eqb_spec c sep) as [->|Hne]; [exfalso; apply Hfree; now left|].
    rewrite IH; [reflexivity|]. intros Hin. apply Hfree. now right.
Qed.

(** No field produced by [split] contains the separator. *)
Lemma split_fields_free (s : string) : Forall (free_of sep) (JS.split sep s).
Proof.
  induction s as [|c r IH]; simpl.
  - constructor; [|constructor]. intros [].
  - destruct (Ascii.eqb_spec c sep) as [->|Hne].
    + constructor; [intros [] | exact IH].
    + destruct (JS.split sep r) as [|f fs].
      * constructor; [|constructor]. intros [H|[]]. congruence.
      * apply Forall_cons in IH as [Hf Hfs]. constructor; [|exact Hfs].
        intros [H|H]; [congruence | now apply Hf].
Qed.

(** A string shares the characters of each of its prefixes. *)
Lemma prefix_chars (p s : string) (c : ascii) :
  String.prefix p s = true ->
  In c (list_ascii_of_string p) -> In c (list_ascii_of_string s).
Proof.
  revert s. induction p as [|a p IH]; intros s Hp Hin; [destruct Hin|].
  destruct s as [|b s]; simpl in Hp; [discriminate|].
  destruct (ascii_dec a b) as [->|]; [|discriminate].
  destruct Hin as [->|Hin]; simpl; [now left | right; now apply IH].
Qed.

End StringFacts.

(** ** The endpoints asked for the public key *)

Lemma truthy_app_nonempty (a b : string) : b <> "" -> JS.truthy (a ++ b) = true.
Proof.
  intros Hb. apply truthy_true. destruct a; [exact Hb | discriminate].
Qed.

(** The list after [.filter(Boolean)], written out. *)
Lemma PUBLIC_KEY_ENDPOINTS_shape (w : World) :
  PUBLIC_KEY_ENDPOINTS w
  = ((match AUTH_PUBLIC_KEY_URL w with
      | Some url => if JS.truthy url then [url] else []
      | None => []
      end)
     ++ (match AUTH_SERVICE_URL w with
         | Some url =>
             if JS.truthy url
             then [(JS.replace_trailing_slash url ++ "/api/auth/public-key")%string]
             else []
         | None => []
         end)
     ++ ["http://rest-api:3001/api/auth/public-key";
         "http://localhost:3001/api/auth/public-key"])%list.
Proof.
  unfold PUBLIC_KEY_ENDPOINTS, filter_Boolean.
  destruct (AUTH_PUBLIC_KEY_URL w) as [k|]; [destruct (JS.truthy k) eqn:Hk|];
    (destruct (AUTH_SERVICE_URL w) as [u|]; [destruct (JS.truthy u) eqn:Hu|]);
    simpl; rewrite ?Hk, ?truthy_app_nonempty by discriminate; reflexivity.
Qed.

(** X17. Whatever the environment variables, the two built-in endpoints
    are in [PUBLIC_KEY_ENDPOINTS], in the last two places, after at most
    two configured ones; a non-empty [AUTH_PUBLIC_KEY_URL] is the first
    endpoint tried, and no endpoint is the empty string. *)
Theorem X17_builtin_endpoints_are_tried_last (w : World) :
  (exists configured,
      PUBLIC_KEY_ENDPOINTS w
      = (configured ++ ["http://rest-api:3001/api/auth/public-key";
                        "http://localhost:3001/api/auth/public-key"])%list
      /\ (length configured <= 2)%nat)
  /\ (forall url, AUTH_PUBLIC_KEY_URL w = Some url -> url <> "" ->
                  exists rest, PUBLIC_KEY_ENDPOINTS w = url :: rest)
  /\ Forall (fun e => e <> "") (PUBLIC_KEY_ENDPOINTS w).
Proof.
  rewrite PUBLIC_KEY_ENDPOINTS_shape.
  split; [|split].
  - eexists (_ ++ _)%list. rewrite <- app_assoc. split; [reflexivity|].
    rewrite length_app.
    destruct (AUTH_PUBLIC_KEY_URL w) as [k|]; [destruct (JS.truthy k)|];
      (destruct (AUTH_SERVICE_URL w) as [u|]; [destruct (JS.truthy u)|]);
      simpl; lia.
  - intros url -> Hurl. apply truthy_true in Hurl. rewrite Hurl.
    eexists. reflexivity.
  - repeat apply Forall_app_2.
    + destruct (AUTH_PUBLIC_KEY_URL w) as [k|]; [destruct (JS.truthy k) eqn:Hk|];
        repeat constructor. now apply truthy_true.
    + destruct (AUTH_SERVICE_URL w) as [u|]; [destruct (JS.truthy u)|];
        repeat constructor. apply truthy_true, truthy_app_nonempty. discriminate.
    + repeat constructor; discriminate.
Qed.

(** X18. One trailing slash of [AUTH_SERVICE_URL] is immaterial: for a
    non-empty url that does not end in a slash, the url and the url followed
    by a slash give the same endpoint list, which contains the url followed
    by [/api/auth/public-key]. *)
Theorem X18_trailing_slash_of_service_url_is_ignored (w : World) (url : string) :
  url <> "" ->
  (forall u, url <> u ++ "/") ->
  let plain :=
    mkWorld (AUTH_PUBLIC_KEY_URL w) (Some url) (axios_get w)
            (jws_decode w) (jwt_precheck w) (jws_verify w) (claims_error w) in
  let slashed :=
    mkWorld (AUTH_PUBLIC_KEY_URL w) (Some (url ++ "/")) (axios_get w)
            (jws_decode w) (jwt_precheck w) (jws_verify w) (claims_error w) in
  PUBLIC_KEY_ENDPOINTS slashed = PUBLIC_KEY_ENDPOINTS plain
  /\ In (url ++ "/api/auth/public-key") (PUBLIC_KEY_ENDPOINTS plain).
Proof.
  intros Hurl Hno plain slashed.
  rewrite !PUBLIC_KEY_ENDPOINTS_shape. unfold plain, slashed. simpl.
  rewrite replace_trailing_slash_app, (replace_trailing_slash_none url Hno).
  rewrite (truthy_app_nonempty url "/") by discriminate.
  apply truthy_true in Hurl. rewrite Hurl.
  split; [reflexivity|].
  apply in_or_app. right. now left.
Qed.

Lemma X18_witness :
  PUBLIC_KEY_ENDPOINTS
    (mkWorld None (Some "http://auth:3001/") (axios_get Examples.offline)
             (jws_decode Examples.offline) (jwt_precheck Examples.offline)
             (jws_verify Examples.offline) (claims_error Examples.offline))
  = PUBLIC_KEY_ENDPOINTS
      (mkWorld None (Some "http://auth:3001") (axios_get Examples.offline)
               (jws_decode Examples.offline) (jwt_precheck Examples.offline)
               (jws_verify Examples.offline) (claims_error Examples.offline))
  /\ In "http://auth:3001/api/auth/public-key"
        (PUBLIC_KEY_ENDPOINTS
           (mkWorld None (Some "http://auth:3001") (axios_get Examples.offline)
                    (jws_decode Examples.offline) (jwt_precheck Examples.offline)
                    (jws_verify Examples.offline) (claims_error Examples.offline))).
Proof.
  apply (X18_trailing_slash_of_service_url_is_ignored
           Examples.offline "http://auth:3001").
  - discriminate.
  - intros u Hu. pose proof Hu as Hu'.
    apply (f_equal (fun s => JS.replace_trailing_slash s)) in Hu'.
    rewrite replace_trailing_slash_app in Hu'. simpl in Hu'. subst u.
    discriminate Hu.
Defined.

(** ** The caller identity *)

Section Identity.

Lemma or_empty (v : string) : JS.or v "" = v.
Proof.
  unfold JS.or. destruct (JS.truthy v) eqn:Hv; [reflexivity|].
  now apply truthy_false in Hv.
Qed.

(** The identity headers do not include [authorization]. *)
Lemma header_identity_with_authorization (value : string) (req : Request) :
  header_identity (with_header "authorization" value req) = header_identity req.
Proof.
  unfold header_identity, with_header. simpl.
  now rewrite !lookup_insert_ne by discriminate.
Qed.

Lemma bearer_token_with_authorization (value : string) (req : Request) :
  bearer_token (with_header "authorization" value req)
  = if JS.startsWith value "Bearer "
    then default "" (JS.split " " value !! 1%nat)
    else value.
Proof.
  unfold bearer_token, with_header. simpl.
  rewrite lookup_insert_eq. simpl. now rewrite or_empty.
Qed.

(** A credential without a space is what either form of the header
    carries. *)
Lemma bearer_token_prefixed (token : string) (req : Request) :
  free_of " " token ->
  bearer_token (with_header "authorization" ("Bearer " ++ token) req) = token.
Proof.
  intros Hfree. rewrite bearer_token_with_authorization.
  change (JS.split " " ("Bearer " ++ token))
    with (JS.split " " ("Bearer" ++ String " " token)).
  rewrite split_field by (intros [H|[H|[H|[H|[H|[H|[]]]]]]]; discriminate).
  rewrite (split_free " " token Hfree).
  unfold JS.startsWith. simpl.
  repeat (match goal with |- context [ascii_dec ?a ?b] =>
            destruct (ascii_dec a b); [|congruence] end).
  destruct token; reflexivity.
Qed.

Lemma bearer_token_bare (token : string) (req : Request) :
  free_of " " token ->
  bearer_token (with_header "authorization" token req) = token.
Proof.
  intros Hfree. rewrite bearer_token_with_authorization.
  destruct (JS.startsWith token "Bearer ") eqn:Hp; [|reflexivity].
  exfalso. apply Hfree. apply (prefix_chars "Bearer " token " " Hp).
  simpl. tauto.
Qed.

End Identity.

(** X19. A non-empty [x-user-id] header settles the identity: [context]
    returns the identity read from the headers and leaves the state as it
    is, in every world and whatever [authorization] header comes with the
    request; no key is fetched and no token is verified. *)
Theorem X19_forwarded_identity_skips_verification
    (w : World) (req : Request) (s : Server) (uid : string) :
  headers req !! "x-user-id" = Some uid ->
  uid <> "" ->
  context w req s = (Return (header_identity req), s)
  /\ userId (header_identity req) = uid
  /\ (forall w' credential,
         context w' (with_header "authorization" credential req) s
         = (Return (header_identity req), s)).
Proof.
  intros Hh Huid.
  assert (Hid : userId (header_identity req) = uid).
  { unfold header_identity. simpl. rewrite Hh. simpl. unfold JS.or.
    apply truthy_true in Huid. now rewrite Huid. }
  assert (Ht : JS.truthy (userId (header_identity req)) = true)
    by (rewrite Hid; now apply truthy_true).
  split; [|split; [exact Hid|]].
  - rewrite context_run, Ht. reflexivity.
  - intros w' credential.
    rewrite context_run, header_identity_with_authorization, Ht. reflexivity.
Qed.

Lemma X19_witness :
  context Examples.online
          (mkRequest {[ "x-user-id" := "u7"; "x-user-name" := "Eve";
                        "authorization" := "Bearer rs.alice.sig" ]})
          Examples.s0
  = (Return (mkContext "u7" "Eve" "" [] "user"), Examples.s0).
Proof.
  refine (proj1 (X19_forwarded_identity_skips_verification
                   Examples.online
                   (mkRequest {[ "x-user-id" := "u7"; "x-user-name" := "Eve";
                                 "authorization" := "Bearer rs.alice.sig" ]})
                   Examples.s0 "u7" _ _)).
  - reflexivity.
  - discriminate.
Defined.

(** X20. The [x-user-role] header is honoured on its own: a request that
    carries [x-user-role: admin] and no [authorization] header, with or
    without an [x-user-id], gets role "admin" from [context], and with that
    identity [updateTask] and [deleteTask] succeed on every existing task. *)
Theorem X20_role_header_alone_grants_admin_rights
    (w : World) (req : Request) (s0 : Server)
    (now id : string) (title description : option string)
    (status : option TaskStatus) (assignee : option string)
    (s : Server) (task : Task.t) :
  headers req !! "x-user-role" = Some "admin" ->
  headers req !! "authorization" = None ->
  lookup_task id s = Some task ->
  exists ctx,
    context w req s0 = (Return ctx, s0)
    /\ userRole ctx = "admin"
    /\ (exists updated s',
           Mutation.updateTask now id title description status assignee ctx s
           = (Return updated, s'))
    /\ (exists s', Mutation.deleteTask id ctx s = (Return true, s')).
Proof.
  intros Hrole Hauth Hl.
  exists (header_identity req).
  assert (Htok : bearer_token req = "")
    by (unfold bearer_token; now rewrite Hauth).
  assert (Hadmin : userRole (header_identity req) = "admin")
    by (unfold header_identity; simpl; now rewrite Hrole).
  split.
  { rewrite context_run, Htok. simpl. now rewrite andb_false_r. }
  split; [exact Hadmin|].
  rewrite (updateTask_found _ _ _ _ _ _ _ _ task Hl).
  rewrite (deleteTask_found _ _ _ task Hl).
  assert (Hok : not_allowed (header_identity req) task = false)
    by (apply not_allowed_false; now left).
  rewrite Hok. eauto.
Qed.

Lemma X20_witness :
  exists ctx,
    context Examples.offline (mkRequest {[ "x-user-role" := "admin" ]}) Examples.s0
    = (Return ctx, Examples.s0)
    /\ userRole ctx = "admin"
    /\ (exists updated s',
           Mutation.updateTask Examples.noon "t2" None None (Some DONE) None
                               ctx Examples.s0
           = (Return updated, s'))
    /\ (exists s', Mutation.deleteTask "t2" ctx Examples.s0 = (Return true, s')).
Proof.
  apply (X20_role_header_alone_grants_admin_rights
           Examples.offline (mkRequest {[ "x-user-role" := "admin" ]}) Examples.s0
           Examples.noon "t2" None None (Some DONE) None Examples.s0
           (Task.mk "t2" "Implement JWT authentication"
              "Integrasi JWT RS256 antara User Service dan API Gateway."
              IN_PROGRESS "Jane Smith" "2024-01-01T00:00:00.000Z"
              "2024-01-01T00:00:00.000Z")); reflexivity.
Defined.

(** X21. The "Bearer " prefix of the [authorization] header is optional:
    for a credential without a space, the header "Bearer " followed by the
    credential and the header holding the bare credential give the same run
    of [context], and the credential is what is verified. *)
Theorem X21_bearer_prefix_is_optional
    (w : World) (req : Request) (s : Server) (token : string) :
  free_of " " token ->
  bearer_token (with_header "authorization" ("Bearer " ++ token) req) = token
  /\ context w (with_header "authorization" ("Bearer " ++ token) req) s
     = context w (with_header "authorization" token req) s.
Proof.
  intros Hfree. split; [now apply bearer_token_prefixed|].
  rewrite !context_run, !header_identity_with_authorization.
  now rewrite bearer_token_prefixed, bearer_token_bare.
Qed.

Lemma X21_witness :
  bearer_token (with_header "authorization" "Bearer rs.alice.sig"
                            Examples.no_headers)
  = "rs.alice.sig"
  /\ context Examples.online
             (with_header "authorization" "Bearer rs.alice.sig" Examples.no_headers)
             Examples.s0
     = context Examples.online
               (with_header "authorization" "rs.alice.sig" Examples.no_headers)
               Examples.s0.
Proof.
  apply (X21_bearer_prefix_is_optional
           Examples.online Examples.no_headers Examples.s0 "rs.alice.sig").
  intros H. simpl in H.
  repeat (destruct H as [H|H]; [discriminate H|]). exact H.
Defined.

(** ** The teams header *)

(** Reading back a comma-joined list of clean names. *)
Lemma split_concat_teams (teams : list string) :
  Forall (fun t => t <> "" /\ free_of "," t) teams ->
  List.filter JS.truthy (JS.split "," (String.concat "," teams)) = teams.
Proof.
  induction teams as [|t ts IH]; intros Hclean; [reflexivity|].
  apply Forall_cons in Hclean as [[Ht Hfree] Hts].
  apply truthy_true in Ht.
  destruct ts as [|t2 ts'].
  - simpl. rewrite (split_free "," t Hfree). simpl. now rewrite Ht.
  - change (String.concat "," (t :: t2 :: ts'))
      with (t ++ String "," (String.concat "," (t2 :: ts'))).
    rewrite (split_field "," t _ Hfree). simpl List.filter. rewrite Ht.
    f_equal. now apply IH.
Qed.

(** X22. The [x-user-teams] header is read back faithfully: when the
    gateway forwards an identity whose teams are non-empty names without a
    comma, joined by commas, [context] reports exactly those teams, in
    order. *)
Theorem X22_teams_header_round_trip
    (w : World) (req : Request) (s : Server) (uid : string)
    (teams : list string) :
  headers req !! "x-user-id" = Some uid ->
  uid <> "" ->
  Forall (fun t => t <> "" /\ free_of "," t) teams ->
  headers req !! "x-user-teams" = Some (String.concat "," teams) ->
  exists ctx,
    context w req s = (Return ctx, s) /\ userId ctx = uid /\ userTeams ctx = teams.
Proof.
  intros Hh Huid Hclean Hteams.
  exists (header_identity req).
  assert (Hid : userId (header_identity req) = uid).
  { unfold header_identity. simpl. rewrite Hh. simpl. unfold JS.or.
    apply truthy_true in Huid. now rewrite Huid. }
  split; [|split; [exact Hid|]].
  - rewrite context_run, Hid. apply truthy_true in Huid. now rewrite Huid.
  - unfold header_identity. simpl. rewrite Hteams.
    pose proof (split_concat_teams teams Hclean) as Hback.
    destruct (JS.truthy (String.concat "," teams)) eqn:Hc; [exact Hback|].
    apply truthy_false in Hc. rewrite Hc in Hback. simpl in Hback. congruence.
Qed.

Lemma X22_witness :
  exists ctx,
    context Examples.offline
            (mkRequest {[ "x-user-id" := "u7"; "x-user-teams" := "core,ops" ]})
            Examples.s0
    = (Return ctx, Examples.s0)
    /\ userId ctx = "u7" /\ userTeams ctx = ["core"; "ops"].
Proof.
  refine (X22_teams_header_round_trip
            Examples.offline
            (mkRequest {[ "x-user-id" := "u7"; "x-user-teams" := "core,ops" ]})
            Examples.s0 "u7" ["core"; "ops"] _ _ _ _).
  - reflexivity.
  - discriminate.
  - repeat constructor; try discriminate;
      intros H; simpl in H;
      repeat (destruct H as [H|H]; [discriminate H|]); exact H.
  - reflexivity.
Defined.

(** X23. Whatever the [x-user-teams] header holds, the teams read from it
    are non-empty and contain no comma: empty fields (as in [a,,b] or a
    trailing comma) are dropped. *)
Theorem X23_teams_from_header_are_clean (req : Request) :
  Forall (fun t => t <> "" /\ free_of "," t) (userTeams (header_identity req)).
Proof.
  unfold header_identity. simpl.
  destruct (headers req !! "x-user-teams") as [h|]; [|constructor].
  destruct (JS.truthy h); [|constructor].
  apply List.Forall_forall. intros t Ht. apply filter_In in Ht as [Hin Htruthy].
  split; [now apply truthy_true|].
  pose proof (split_fields_free "," h) as Hfree.
  rewrite List.Forall_forall in Hfree. now apply Hfree.
Qed.

(** X24. [context] never throws and never writes tasks, activities or
    events, whatever the request and the world; the userName and the
    userRole it reports are never empty. *)
Theorem X24_context_always_returns_an_identity
    (w : World) (req : Request) (s : Server) :
  exists ctx s',
    context w req s = (Return ctx, s')
    /\ userName ctx <> "" /\ userRole ctx <> ""
    /\ same_store s s'.
Proof.
  destruct (context_returns w req s) as (ctx & s' & Hrun & Hname & Hsame).
  exists ctx, s'. split; [exact Hrun|]. split; [exact Hname|].
  split; [|exact Hsame].
  rewrite context_run in Hrun.
  assert (Hh : userRole (header_identity req) <> "")
    by (apply or_undef_truthy; discriminate).
  destruct (negb (JS.truthy (userId (header_identity req)))
            && JS.truthy (bearer_token req)); [|now injection Hrun as <- _].
  destruct (decodeToken w (bearer_token req) s) as [[decoded|message] s1];
    injection Hrun as <- _; [|exact Hh].
  simpl. now apply or_undef_truthy.
Qed.

(** ** The dashboard *)

(** X25. The three columns of the board partition the tasks: every task
    the server returns is in exactly one column, the one of its status, so
    the columns together are a rearrangement of the task list and their
    sizes add up to its length. *)
Theorem X25_board_columns_partition_the_tasks (tasks : list Task.t) :
  Permutation
    (Dashboard.Grouped.TODO (Dashboard.grouped tasks)
     ++ Dashboard.Grouped.IN_PROGRESS (Dashboard.grouped tasks)
     ++ Dashboard.Grouped.DONE (Dashboard.grouped tasks))%list
    tasks
  /\ Forall (fun t => Task.status t = TODO)
            (Dashboard.Grouped.TODO (Dashboard.grouped tasks))
  /\ Forall (fun t => Task.status t = IN_PROGRESS)
            (Dashboard.Grouped.IN_PROGRESS (Dashboard.grouped tasks))
  /\ Forall (fun t => Task.status t = DONE)
            (Dashboard.Grouped.DONE (Dashboard.grouped tasks))
  /\ (length (Dashboard.Grouped.TODO (Dashboard.grouped tasks))
      + length (Dashboard.Grouped.IN_PROGRESS (Dashboard.grouped tasks))
      + length (Dashboard.Grouped.DONE (Dashboard.grouped tasks))
      = length tasks)%nat.
Proof.
  assert (Hperm :
    Permutation
      (Dashboard.Grouped.TODO (Dashboard.grouped tasks)
       ++ Dashboard.Grouped.IN_PROGRESS (Dashboard.grouped tasks)
       ++ Dashboard.Grouped.DONE (Dashboard.grouped tasks))%list
      tasks).
  { simpl. induction tasks as [|t ts IH]; [constructor|].
    simpl. unfold Dashboard.status_is at 1 3 5.
    destruct (Task.status t); simpl.
    - now constructor.
    - symmetry. apply Permutation_cons_app. now symmetry.
    - symmetry. rewrite app_assoc. apply Permutation_cons_app.
      rewrite <- app_assoc. now symmetry. }
  split; [exact Hperm|].
  assert (Hcol : forall c,
             Forall (fun t => Task.status t = c)
                    (List.filter (Dashboard.status_is c) tasks)).
  { intros c. apply List.Forall_forall. intros t Ht. apply filter_In in Ht as [_ Ht].
    unfold Dashboard.status_is in Ht.
    destruct c, (Task.status t); congruence. }
  split; [apply Hcol|]. split; [apply Hcol|]. split; [apply Hcol|].
  apply Permutation_length in Hperm. rewrite !length_app in Hperm. lia.
Qed.

(** X26. The board offers the Delete button exactly when the server would
    carry out the deletion: for a task found under its id, and a dashboard
    showing the role and name the server attributes to the caller, the
    button is rendered if and only if [deleteTask] returns [true], and
    hidden if and only if it throws the "not allowed" error. *)
Theorem X26_delete_button_matches_the_server_guard
    (ctx : Context) (id : string) (s : Server) (task : Task.t) :
  lookup_task id s = Some task ->
  (Dashboard.delete_button (userRole ctx) (userName ctx) task = true
   <-> exists s', Mutation.deleteTask id ctx s = (Return true, s'))
  /\ (Dashboard.delete_button (userRole ctx) (userName ctx) task = false
      <-> Mutation.deleteTask id ctx s
          = (Throw "You are not allowed to delete this task.", s)).
Proof.
  intros Hl. rewrite (deleteTask_found id ctx s task Hl).
  assert (Hb : Dashboard.delete_button (userRole ctx) (userName ctx) task
               = negb (not_allowed ctx task)).
  { unfold Dashboard.delete_button, not_allowed.
    now rewrite negb_andb, !negb_involutive. }
  rewrite Hb. destruct (not_allowed ctx task); simpl; split; split;
    try discriminate; try reflexivity; eauto.
  - intros (s' & [=]).
Qed.

Lemma X26_witness :
  (Dashboard.delete_button "user" "John Doe"
     (Task.mk "t1" "Setup project structure"
        "Inisialisasi repository, konfigurasi Docker, dan API Gateway."
        TODO "John Doe" "2024-01-01T00:00:00.000Z" "2024-01-01T00:00:00.000Z")
   = true
   <-> exists s', Mutation.deleteTask "t1" Examples.john Examples.s0
                  = (Return true, s'))
  /\ (Dashboard.delete_button "user" "Bob"
        (Task.mk "t1" "Setup project structure"
           "Inisialisasi repository, konfigurasi Docker, dan API Gateway."
           TODO "John Doe" "2024-01-01T00:00:00.000Z" "2024-01-01T00:00:00.000Z")
      = false
      <-> Mutation.deleteTask "t1" Examples.bob Examples.s0
          = (Throw "You are not allowed to delete this task.", Examples.s0)).
Proof.
  split.
  - apply (X26_delete_button_matches_the_server_guard
             Examples.john "t1" Examples.s0 _ eq_refl).
  - apply (X26_delete_button_matches_the_server_guard
             Examples.bob "t1" Examples.s0 _ eq_refl).
Defined.
